(** * Story composer: canvas compositor and pointer-gesture controller

    A shallow embedding of the geometry and interaction logic of the story
    composer:

    - [calculateImageFit] and [drawStoryCanvas] from the canvas utilities
      (two revisions of the module are present in the repository and both are
      embedded, in [Module Legacy] and [Module Compositor]);
    - the pointer handlers [handleMouseDown], [handleMouseMove] and
      [handleMouseUp] of the [StoryCanvas] component, with its debounced
      position-change effect;
    - [calculateMonthlyPayment] of the generator page.

    JavaScript numbers are modelled as exact rationals ([Q]).  A division
    whose divisor is zero has no rational value (JavaScript produces an
    infinity or NaN there); such a division is modelled as [None], and the
    functions that divide return [option].  Equality of computed numbers is
    [Qeq] ([==]), since [Q] does not normalise fractions. *)

From Stdlib Require Import QArith Qminmax Qround Qpower Qabs.
From Stdlib Require Import ZArith Lia Lqa Bool List String.
Import ListNotations.

Open Scope Q_scope.

(** ** Numbers *)

Definition Qlt_bool (a b : Q) : bool := negb (Qle_bool b a).

(** [a / b] of JavaScript, where it is a finite number. *)
Definition js_div (a b : Q) : option Q :=
  if Qeq_bool b 0 then None else Some (a / b).

(** Bind of the option monad, for the functions that divide. *)
Definition bind {A B : Type} (o : option A) (k : A -> option B) : option B :=
  match o with
  | Some a => k a
  | None => None
  end.

Notation "'let?' x ':=' o 'in' k" := (bind o (fun x => k))
  (at level 10, x name, o at level 100, k at level 200).

(** ** Rectangles *)

(** [FloorPlanPosition] and [BackgroundPosition] are the same structure. *)
Record Rect : Type := mkRect {
  rx : Q;
  ry : Q;
  rwidth : Q;
  rheight : Q
}.

Definition FloorPlanPosition := Rect.
Definition BackgroundPosition := Rect.

Definition rect_eq (a b : Rect) : Prop :=
  rx a == rx b /\ ry a == ry b /\
  rwidth a == rwidth b /\ rheight a == rheight b.

Definition rect_eqb (a b : Rect) : bool :=
  Qeq_bool (rx a) (rx b) && Qeq_bool (ry a) (ry b) &&
  Qeq_bool (rwidth a) (rwidth b) && Qeq_bool (rheight a) (rheight b).

Definition CANVAS_WIDTH : Q := 1080.
Definition CANVAS_HEIGHT : Q := 1920.

(** A decoded image: only its intrinsic size matters to the geometry. *)
Record Image : Type := mkImage {
  img_width : Q;
  img_height : Q
}.

(** ** calculateImageFit (identical in both revisions of the module) *)

Definition calculateImageFit (img : Image) (containerWidth containerHeight : Q)
  : option Rect :=
  let? imgAspect := js_div (img_width img) (img_height img) in
  let? containerAspect := js_div containerWidth containerHeight in
  if Qlt_bool containerAspect imgAspect then
    (* Image is wider than container *)
    let width := containerWidth in
    let? height := js_div containerWidth imgAspect in
    let x := 0 in
    let y := (containerHeight - height) / 2 in
    Some (mkRect x y width height)
  else
    (* Image is taller than container *)
    let width := containerHeight * imgAspect in
    let height := containerHeight in
    let x := (containerWidth - width) / 2 in
    let y := 0 in
    Some (mkRect x y width height).

(** The rectangle the claim describes, following the words of the
    specification: [ia = imgW/imgH], [ca = containerW/containerH]. *)
Definition aspect_fit_spec (imgW imgH containerW containerH : Q) : Rect :=
  let ia := imgW / imgH in
  let ca := containerW / containerH in
  if Qlt_le_dec ca ia then
    mkRect 0 ((containerH - containerW / ia) / 2) containerW (containerW / ia)
  else
    mkRect ((containerW - containerH * ia) / 2) 0 (containerH * ia) containerH.

(** The rectangle lies inside the box [0,w] x [0,h]. *)
Definition within_box (r : Rect) (w h : Q) : Prop :=
  0 <= rx r /\ 0 <= ry r /\ rx r + rwidth r <= w /\ ry r + rheight r <= h.

(** ** Files and image decoding *)

(** An uploaded file either decodes to an image or makes [loadImage] reject. *)
Inductive File : Type :=
| Decodable (img : Image)
| Corrupt.

(** [loadImage]: [None] is the rejected promise, caught by the caller's
    [try]/[catch]. *)
Definition loadImage (f : File) : option Image :=
  match f with
  | Decodable img => Some img
  | Corrupt => None
  end.

(** [a || b] on numbers, with [a] read through optional chaining
    ([pos?.field || b]): the right operand is taken when the left one is
    undefined or zero. *)
Definition js_or (a : option Q) (b : Q) : Q :=
  match a with
  | Some v => if Qeq_bool v 0 then b else v
  | None => b
  end.

(** Truthiness of an optional string ([if (backgroundColor)]). *)
Definition truthy_string (s : option string) : option string :=
  match s with
  | Some EmptyString => None
  | Some c => Some c
  | None => None
  end.

(** ** The 2D context: the calls the compositor makes on it *)

Inductive Style : Type :=
| Color (css : string)
| LinearGradient (x0 y0 x1 y1 : Q) (stops : list (Q * string)).

Inductive Layer : Type := BackgroundLayer | FloorPlanLayer.

Record PropertyFormData : Type := mkPropertyFormData {
  propertyAddress : string;
  propertyType : string;
  propertyArea : Q;
  totalCost : Q;
  initialPayment : Q;
  bankRate : Q;
  monthlyPayment : Q;
  selectedBank : string
}.

(** The text arguments of [fillText], by the expression that builds them. *)
Inductive Text : Type :=
| AddressText (address : string)      (* propertyAddress.toUpperCase() || fallback *)
| MortgageCaption                     (* fixed caption of the card *)
| PropertyTypeText (key : string)     (* propertyTypeLabels[propertyType] || fallback *)
| AreaText (area : Q)                 (* propertyArea || 0, with the unit *)
| PaymentCaption                      (* fixed caption above the payment *)
| MonthlyPaymentText (amount : Q)     (* formatCurrency(monthlyPayment) *)
| RateText (rate : Q)                 (* bankRate || 0, with the percent sign *)
| InitialPaymentText (amount : Q)     (* formatCurrency(initialPayment) *)
| TotalCostText (amount : Q)          (* formatCurrency(totalCost) *)
| BankText (key : string).            (* bankLogos[selectedBank] || fallback *)

Inductive Call : Type :=
| SetFillStyle (s : Style)
| SetStrokeStyle (css : string)
| SetLineWidth (w : Q)
| SetLineDash (segments : list Q)
| SetFont (font : string)
| SetTextAlign (align : string)
| SetShadowColor (css : string)
| SetShadowBlur (b : Q)
| SetShadowOffsetX (d : Q)
| SetShadowOffsetY (d : Q)
| FillRect (x y w h : Q)
| StrokeRect (x y w h : Q)
| DrawImage (layer : Layer) (img : Image) (x y w h : Q)
| FillText (t : Text) (x y : Q)
| BeginPath
| MoveTo (x y : Q)
| LineTo (x y : Q)
| Stroke.

(** What ends up painted: a filled rectangle with the fill style current at
    the call, or a bitmap stretched into a rectangle. *)
Inductive Painted : Type :=
| Filled (s : Style) (r : Rect)
| Bitmap (layer : Layer) (r : Rect).

(** Replays the calls, tracking [ctx.fillStyle] (black before any
    assignment, as a fresh context has it). *)
Fixpoint paint_from (fillStyle : Style) (calls : list Call) : list Painted :=
  match calls with
  | [] => []
  | SetFillStyle s :: rest => paint_from s rest
  | FillRect x y w h :: rest =>
      Filled fillStyle (mkRect x y w h) :: paint_from fillStyle rest
  | DrawImage l _ x y w h :: rest =>
      Bitmap l (mkRect x y w h) :: paint_from fillStyle rest
  | _ :: rest => paint_from fillStyle rest
  end.

Definition paint (calls : list Call) : list Painted :=
  paint_from (Color "#000000") calls.

(** The contrast layer: black at 30% opacity. *)
Definition scrim_style : Style := Color "rgba(0, 0, 0, 0.3)".

Definition is_scrim_style (s : Style) : bool :=
  match s with
  | Color css => String.eqb css "rgba(0, 0, 0, 0.3)"
  | LinearGradient _ _ _ _ _ => false
  end.

(** The rectangles filled with the scrim style, in paint order. *)
Fixpoint scrims (ps : list Painted) : list Rect :=
  match ps with
  | [] => []
  | Filled s r :: rest => if is_scrim_style s then r :: scrims rest else scrims rest
  | Bitmap _ _ :: rest => scrims rest
  end.

Definition layer_eqb (a b : Layer) : bool :=
  match a, b with
  | BackgroundLayer, BackgroundLayer | FloorPlanLayer, FloorPlanLayer => true
  | _, _ => false
  end.

(** The rectangles a layer's bitmap was drawn into, in paint order. *)
Fixpoint bitmaps (l : Layer) (ps : list Painted) : list Rect :=
  match ps with
  | [] => []
  | Bitmap l' r :: rest =>
      if layer_eqb l l' then r :: bitmaps l rest else bitmaps l rest
  | Filled _ _ :: rest => bitmaps l rest
  end.

(** The rectangle the bitmap of layer [l] is first drawn into, with the
    scrims painted after it. *)
Fixpoint overlays_after (l : Layer) (ps : list Painted)
  : option (Rect * list Rect) :=
  match ps with
  | [] => None
  | Bitmap l' r :: rest =>
      if layer_eqb l l' then Some (r, scrims rest) else overlays_after l rest
  | Filled _ _ :: rest => overlays_after l rest
  end.

(** The dashed borders drawn as editing chrome: every [strokeRect] issued
    while the line dash is non-empty. *)
Fixpoint dashed_borders_from (dash : list Q) (calls : list Call) : list Rect :=
  match calls with
  | [] => []
  | SetLineDash d :: rest => dashed_borders_from d rest
  | StrokeRect x y w h :: rest =>
      match dash with
      | [] => dashed_borders_from dash rest
      | _ :: _ => mkRect x y w h :: dashed_borders_from dash rest
      end
  | _ :: rest => dashed_borders_from dash rest
  end.

Definition dashed_borders (calls : list Call) : list Rect :=
  dashed_borders_from [] calls.

(** The gradient that clears the canvas when no colour is chosen. *)
Definition default_gradient : Style :=
  LinearGradient 0 0 CANVAS_WIDTH CANVAS_HEIGHT
    [(0, "hsl(217, 91%, 60%)"%string); (1, "hsl(217, 91%, 45%)"%string)].

(** ** The compositor, current revision (eight-argument [drawStoryCanvas]) *)

Module Compositor.

(** The rectangle the background bitmap is drawn into. *)
Definition background_rect (img : Image)
    (backgroundPosition : option BackgroundPosition) : option Rect :=
  match backgroundPosition with
  | Some pos =>
      (* Use custom background position if provided *)
      Some (mkRect (rx pos) (ry pos) (rwidth pos) (rheight pos))
  | None =>
      let? fit := calculateImageFit img CANVAS_WIDTH (CANVAS_HEIGHT * 0.7) in
      Some (mkRect (rx fit) (ry fit + 150) (rwidth fit) (rheight fit))
  end.

Definition background_handles (bgX bgY bgWidth bgHeight : Q) : list Call :=
  let bgHandleX := bgX + bgWidth - 20 in
  let bgHandleY := bgY + bgHeight - 20 in
  [ SetStrokeStyle "rgba(255, 255, 255, 0.6)";
    SetLineWidth 2;
    SetLineDash [10; 5];
    StrokeRect bgX bgY bgWidth bgHeight;
    SetLineDash [];
    SetFillStyle (Color "rgba(255, 255, 255, 0.8)");
    FillRect bgHandleX bgHandleY 20 20;
    SetStrokeStyle "rgba(0, 0, 0, 0.4)";
    SetLineWidth 1;
    StrokeRect bgHandleX bgHandleY 20 20;
    SetStrokeStyle "rgba(0, 0, 0, 0.6)";
    SetLineWidth 2;
    BeginPath;
    MoveTo (bgHandleX + 6) (bgHandleY + 14);
    LineTo (bgHandleX + 14) (bgHandleY + 6);
    MoveTo (bgHandleX + 10) (bgHandleY + 14);
    LineTo (bgHandleX + 14) (bgHandleY + 10);
    MoveTo (bgHandleX + 6) (bgHandleY + 10);
    LineTo (bgHandleX + 10) (bgHandleY + 6);
    Stroke ].

(** The [if (backgroundImage) { try { ... } catch { ... } }] block. *)
Definition draw_background (backgroundImage : option File)
    (backgroundPosition : option BackgroundPosition)
    (showEditingHandles : bool) : option (list Call) :=
  match backgroundImage with
  | None => Some []
  | Some file =>
      match loadImage file with
      | None => Some []   (* caught and logged *)
      | Some img =>
          let? r := background_rect img backgroundPosition in
          let bgX := rx r in
          let bgY := ry r in
          let bgWidth := rwidth r in
          let bgHeight := rheight r in
          Some ([ DrawImage BackgroundLayer img bgX bgY bgWidth bgHeight ]
                ++ (if showEditingHandles
                    then background_handles bgX bgY bgWidth bgHeight
                    else [])
                ++ [ SetFillStyle (Color "rgba(0, 0, 0, 0.3)");
                     FillRect bgX bgY bgWidth bgHeight ])
      end
  end.

(** The rectangle of the floor plan: its border, its handle and the box
    the image is fitted into all derive from it. *)
Definition floor_plan_rect (floorPlanPosition : option FloorPlanPosition)
  : Rect :=
  let planWidth := js_or (option_map rwidth floorPlanPosition) 480 in
  let planHeight := js_or (option_map rheight floorPlanPosition) 320 in
  let planX :=
    js_or (option_map rx floorPlanPosition) (CANVAS_WIDTH - planWidth - 60) in
  let planY := js_or (option_map ry floorPlanPosition) 700 in
  mkRect planX planY planWidth planHeight.

Definition floor_plan_handles (planX planY planWidth planHeight : Q)
  : list Call :=
  let handleX := planX + planWidth - 20 in
  let handleY := planY + planHeight - 20 in
  [ SetStrokeStyle "rgba(255, 255, 255, 0.8)";
    SetLineWidth 2;
    SetLineDash [5; 5];
    StrokeRect planX planY planWidth planHeight;
    SetLineDash [];
    SetFillStyle (Color "rgba(255, 255, 255, 0.9)");
    FillRect handleX handleY 20 20;
    SetStrokeStyle "rgba(0, 0, 0, 0.5)";
    SetLineWidth 1;
    StrokeRect handleX handleY 20 20;
    SetStrokeStyle "rgba(0, 0, 0, 0.7)";
    SetLineWidth 2;
    BeginPath;
    MoveTo (handleX + 6) (handleY + 14);
    LineTo (handleX + 14) (handleY + 6);
    MoveTo (handleX + 10) (handleY + 14);
    LineTo (handleX + 14) (handleY + 10);
    MoveTo (handleX + 6) (handleY + 10);
    LineTo (handleX + 10) (handleY + 6);
    Stroke ].

(** The [if (floorPlan) { try { ... } catch { ... } }] block. *)
Definition draw_floor_plan (floorPlan : option File)
    (floorPlanPosition : option FloorPlanPosition)
    (showEditingHandles : bool) : option (list Call) :=
  match floorPlan with
  | None => Some []
  | Some file =>
      match loadImage file with
      | None => Some []   (* caught and logged *)
      | Some planImg =>
          let r := floor_plan_rect floorPlanPosition in
          let planX := rx r in
          let planY := ry r in
          let planWidth := rwidth r in
          let planHeight := rheight r in
          let? fit := calculateImageFit planImg (planWidth - 4) (planHeight - 4) in
          Some ([ SetShadowColor "rgba(0, 0, 0, 0.8)";
                  SetShadowBlur 10;
                  DrawImage FloorPlanLayer planImg
                    (planX + 2 + rx fit) (planY + 2 + ry fit)
                    (rwidth fit) (rheight fit);
                  SetShadowBlur 0 ]
                ++ (if showEditingHandles
                    then floor_plan_handles planX planY planWidth planHeight
                    else []))
      end
  end.

Definition draw_header (propertyData : PropertyFormData) : list Call :=
  [ SetFillStyle (Color "white");
    SetFont "bold 64px Inter, sans-serif";
    SetTextAlign "center";
    SetShadowColor "rgba(0, 0, 0, 0.5)";
    SetShadowBlur 10;
    FillText (AddressText (propertyAddress propertyData)) (CANVAS_WIDTH / 2) 150;
    SetShadowBlur 0 ].

Definition draw_card (propertyData : PropertyFormData) : list Call :=
  let cardY := CANVAS_HEIGHT - 600 in
  let cardHeight := 300 in
  let cardPadding := 40 in
  [ SetFillStyle (Color "rgba(0, 0, 0, 0.7)");
    FillRect cardPadding cardY (CANVAS_WIDTH - cardPadding * 2) cardHeight;
    SetFillStyle (Color "white");
    SetTextAlign "left";
    SetFont "32px Inter, sans-serif";
    SetFillStyle (Color "#9CA3AF");
    FillText MortgageCaption (cardPadding + 30) (cardY + 60);
    SetFont "bold 40px Inter, sans-serif";
    SetFillStyle (Color "white");
    FillText (PropertyTypeText (propertyType propertyData))
      (cardPadding + 30) (cardY + 110);
    SetFont "32px Inter, sans-serif";
    FillText (AreaText (propertyArea propertyData))
      (cardPadding + 30) (cardY + 150);
    SetTextAlign "right";
    SetFont "32px Inter, sans-serif";
    SetFillStyle (Color "#9CA3AF");
    FillText PaymentCaption (CANVAS_WIDTH - cardPadding - 30) (cardY + 60);
    SetFont "bold 56px Inter, sans-serif";
    SetFillStyle (Color "white");
    FillText (MonthlyPaymentText (monthlyPayment propertyData))
      (CANVAS_WIDTH - cardPadding - 30) (cardY + 120);
    SetFont "28px Inter, sans-serif";
    SetFillStyle (Color "#9CA3AF");
    SetTextAlign "left";
    FillText (RateText (bankRate propertyData))
      (cardPadding + 30) (cardY + 220) ].

Definition draw_bottom (propertyData : PropertyFormData) : list Call :=
  let cardPadding := 40 in
  let bottomY := CANVAS_HEIGHT - 160 in
  let leftPadding := 60 in
  [ SetFont "bold 48px Inter, sans-serif";
    SetShadowColor "rgba(0, 0, 0, 1)";
    SetShadowBlur 8;
    SetShadowOffsetX 3;
    SetShadowOffsetY 3;
    SetFillStyle (Color "white");
    SetTextAlign "left";
    FillText (InitialPaymentText (initialPayment propertyData))
      leftPadding bottomY;
    FillText (TotalCostText (totalCost propertyData))
      leftPadding (bottomY + 60);
    SetShadowBlur 0;
    SetShadowOffsetX 0;
    SetShadowOffsetY 0;
    SetTextAlign "right";
    SetFont "bold 36px Inter, sans-serif";
    SetFillStyle (Color "white");
    SetShadowColor "rgba(0, 0, 0, 0.8)";
    SetShadowBlur 6;
    SetShadowOffsetX 2;
    SetShadowOffsetY 2;
    FillText (BankText (selectedBank propertyData))
      (CANVAS_WIDTH - cardPadding - 30) (bottomY + 70);
    SetShadowBlur 0;
    SetShadowOffsetX 0;
    SetShadowOffsetY 0 ].

Definition clear_canvas (backgroundColor : option string) : list Call :=
  match truthy_string backgroundColor with
  | Some css =>
      [ SetFillStyle (Color css); FillRect 0 0 CANVAS_WIDTH CANVAS_HEIGHT ]
  | None =>
      [ SetFillStyle default_gradient; FillRect 0 0 CANVAS_WIDTH CANVAS_HEIGHT ]
  end.

(** The calls made on the context, in program order.  [None]: a division
    by zero inside [calculateImageFit] (an image or box of zero height). *)
Definition drawStoryCanvas (propertyData : PropertyFormData)
    (backgroundImage floorPlan : option File)
    (floorPlanPosition : option FloorPlanPosition)
    (backgroundPosition : option BackgroundPosition)
    (backgroundColor : option string)
    (showEditingHandles : bool) : option (list Call) :=
  let? background :=
    draw_background backgroundImage backgroundPosition showEditingHandles in
  let? plan := draw_floor_plan floorPlan floorPlanPosition showEditingHandles in
  Some (clear_canvas backgroundColor
        ++ background
        ++ plan
        ++ draw_header propertyData
        ++ draw_card propertyData
        ++ draw_bottom propertyData).

End Compositor.

(** ** The compositor, earlier revision (six-argument [drawStoryCanvas] of
    [client/src/lib/canvas-utils.ts]) *)

Module Legacy.

Definition draw_background (backgroundImage : option File)
    (backgroundPosition : option BackgroundPosition) : option (list Call) :=
  match backgroundImage with
  | None => Some []
  | Some file =>
      match loadImage file with
      | None => Some []   (* caught and logged *)
      | Some img =>
          let? r :=
            match backgroundPosition with
            | Some pos =>
                Some (mkRect (rx pos) (ry pos) (rwidth pos) (rheight pos))
            | None =>
                let? fit :=
                  calculateImageFit img CANVAS_WIDTH (CANVAS_HEIGHT * 0.7) in
                Some (mkRect (rx fit) (ry fit + 150) (rwidth fit) (rheight fit))
            end in
          Some [ DrawImage BackgroundLayer img (rx r) (ry r) (rwidth r) (rheight r);
                 (* Add dark overlay for text readability *)
                 SetFillStyle (Color "rgba(0, 0, 0, 0.3)");
                 FillRect 0 0 CANVAS_WIDTH CANVAS_HEIGHT ]
      end
  end.

Definition draw_floor_plan (floorPlan : option File)
    (floorPlanPosition : option FloorPlanPosition) : option (list Call) :=
  match floorPlan with
  | None => Some []
  | Some file =>
      match loadImage file with
      | None => Some []   (* caught and logged *)
      | Some planImg =>
          let planWidth := js_or (option_map rwidth floorPlanPosition) 480 in
          let planHeight := js_or (option_map rheight floorPlanPosition) 320 in
          let planX :=
            js_or (option_map rx floorPlanPosition)
                  (CANVAS_WIDTH - planWidth - 60) in
          let planY := js_or (option_map ry floorPlanPosition) 700 in
          let? fit :=
            calculateImageFit planImg (planWidth - 20) (planHeight - 20) in
          Some [ SetShadowColor "rgba(0, 0, 0, 0.8)";
                 SetShadowBlur 10;
                 DrawImage FloorPlanLayer planImg
                   (planX + 10 + rx fit) (planY + 10 + ry fit)
                   (rwidth fit) (rheight fit);
                 SetShadowBlur 0 ]
      end
  end.

Definition draw_bottom (propertyData : PropertyFormData) : list Call :=
  let cardPadding := 40 in
  let bottomY := CANVAS_HEIGHT - 180 in
  [ SetFont "bold 32px Inter, sans-serif";
    SetShadowColor "rgba(0, 0, 0, 0.8)";
    SetShadowBlur 6;
    SetShadowOffsetX 2;
    SetShadowOffsetY 2;
    SetFillStyle (Color "white");
    SetTextAlign "left";
    FillText (InitialPaymentText (initialPayment propertyData))
      (cardPadding + 30) bottomY;
    SetTextAlign "right";
    FillText (TotalCostText (totalCost propertyData))
      (CANVAS_WIDTH - cardPadding - 30) bottomY;
    SetShadowBlur 0;
    SetShadowOffsetX 0;
    SetShadowOffsetY 0;
    SetTextAlign "right";
    SetFont "bold 36px Inter, sans-serif";
    SetFillStyle (Color "white");
    SetShadowColor "rgba(0, 0, 0, 0.8)";
    SetShadowBlur 6;
    SetShadowOffsetX 2;
    SetShadowOffsetY 2;
    FillText (BankText (selectedBank propertyData))
      (CANVAS_WIDTH - cardPadding - 30) (bottomY + 70);
    SetShadowBlur 0;
    SetShadowOffsetX 0;
    SetShadowOffsetY 0 ].

(** Header and card are drawn with the same calls as in the current
    revision; the floor plan comes after the card here. *)
Definition drawStoryCanvas (propertyData : PropertyFormData)
    (backgroundImage floorPlan : option File)
    (floorPlanPosition : option FloorPlanPosition)
    (backgroundPosition : option BackgroundPosition) : option (list Call) :=
  let? background := draw_background backgroundImage backgroundPosition in
  let? plan := draw_floor_plan floorPlan floorPlanPosition in
  Some ([ SetFillStyle default_gradient;
          FillRect 0 0 CANVAS_WIDTH CANVAS_HEIGHT ]
        ++ background
        ++ Compositor.draw_header propertyData
        ++ Compositor.draw_card propertyData
        ++ plan
        ++ draw_bottom propertyData).

End Legacy.

(** ** The interaction controller ([StoryCanvas]) *)

Module Controller.

Record Point : Type := mkPoint { px : Q; py : Q }.

Inductive Cursor : Type := CursorDefault | CursorNwResize | CursorMove.

(** The props the handlers close over. *)
Record Props : Type := mkProps {
  backgroundImage : option File;
  floorPlan : option File;
  onPositionChange : bool   (* whether the callback prop was supplied *)
}.

(** The component state (the [useState] cells) and the canvas cursor. *)
Record State : Type := mkState {
  floorPlanPosition : FloorPlanPosition;
  backgroundPosition : BackgroundPosition;
  isDragging : bool;
  isResizing : bool;
  dragStart : Point;
  backgroundDragging : bool;
  backgroundResizing : bool;
  cursor : Cursor
}.

Definition present (f : option File) : bool :=
  match f with
  | Some _ => true
  | None => false
  end.

Definition default_floorPlanPosition : FloorPlanPosition := mkRect 440 650 600 400.
Definition default_backgroundPosition : BackgroundPosition := mkRect 0 150 1080 1350.

(** State of a freshly mounted component. *)
Definition initial_state
    (initialFloorPlanPosition : option FloorPlanPosition)
    (initialBackgroundPosition : option BackgroundPosition) : State :=
  {| floorPlanPosition :=
       match initialFloorPlanPosition with
       | Some r => r
       | None => default_floorPlanPosition
       end;
     backgroundPosition :=
       match initialBackgroundPosition with
       | Some r => r
       | None => default_backgroundPosition
       end;
     isDragging := false;
     isResizing := false;
     dragStart := mkPoint 0 0;
     backgroundDragging := false;
     backgroundResizing := false;
     cursor := CursorDefault |}.

(** Field updates, as the [useState] setters perform them. *)
Definition setFloorPlanPosition (r : FloorPlanPosition) (s : State) : State :=
  {| floorPlanPosition := r;
     backgroundPosition := backgroundPosition s;
     isDragging := isDragging s;
     isResizing := isResizing s;
     dragStart := dragStart s;
     backgroundDragging := backgroundDragging s;
     backgroundResizing := backgroundResizing s;
     cursor := cursor s |}.

Definition setBackgroundPosition (r : BackgroundPosition) (s : State) : State :=
  {| floorPlanPosition := floorPlanPosition s;
     backgroundPosition := r;
     isDragging := isDragging s;
     isResizing := isResizing s;
     dragStart := dragStart s;
     backgroundDragging := backgroundDragging s;
     backgroundResizing := backgroundResizing s;
     cursor := cursor s |}.

Definition setIsDragging (b : bool) (s : State) : State :=
  {| floorPlanPosition := floorPlanPosition s;
     backgroundPosition := backgroundPosition s;
     isDragging := b;
     isResizing := isResizing s;
     dragStart := dragStart s;
     backgroundDragging := backgroundDragging s;
     backgroundResizing := backgroundResizing s;
     cursor := cursor s |}.

Definition setIsResizing (b : bool) (s : State) : State :=
  {| floorPlanPosition := floorPlanPosition s;
     backgroundPosition := backgroundPosition s;
     isDragging := isDragging s;
     isResizing := b;
     dragStart := dragStart s;
     backgroundDragging := backgroundDragging s;
     backgroundResizing := backgroundResizing s;
     cursor := cursor s |}.

Definition setDragStart (p : Point) (s : State) : State :=
  {| floorPlanPosition := floorPlanPosition s;
     backgroundPosition := backgroundPosition s;
     isDragging := isDragging s;
     isResizing := isResizing s;
     dragStart := p;
     backgroundDragging := backgroundDragging s;
     backgroundResizing := backgroundResizing s;
     cursor := cursor s |}.

Definition setBackgroundDragging (b : bool) (s : State) : State :=
  {| floorPlanPosition := floorPlanPosition s;
     backgroundPosition := backgroundPosition s;
     isDragging := isDragging s;
     isResizing := isResizing s;
     dragStart := dragStart s;
     backgroundDragging := b;
     backgroundResizing := backgroundResizing s;
     cursor := cursor s |}.

Definition setBackgroundResizing (b : bool) (s : State) : State :=
  {| floorPlanPosition := floorPlanPosition s;
     backgroundPosition := backgroundPosition s;
     isDragging := isDragging s;
     isResizing := isResizing s;
     dragStart := dragStart s;
     backgroundDragging := backgroundDragging s;
     backgroundResizing := b;
     cursor := cursor s |}.

Definition setCursor (c : Cursor) (s : State) : State :=
  {| floorPlanPosition := floorPlanPosition s;
     backgroundPosition := backgroundPosition s;
     isDragging := isDragging s;
     isResizing := isResizing s;
     dragStart := dragStart s;
     backgroundDragging := backgroundDragging s;
     backgroundResizing := backgroundResizing s;
     cursor := c |}.

(** [getMousePos]: display coordinates to canvas coordinates. *)
Record DOMRect : Type := mkDOMRect {
  dom_left : Q; dom_top : Q; dom_width : Q; dom_height : Q
}.

Definition getMousePos (canvas : option DOMRect) (clientX clientY : Q)
  : option Point :=
  match canvas with
  | None => Some (mkPoint 0 0)
  | Some rect =>
      let? scaleX := js_div 1080 (dom_width rect) in
      let? scaleY := js_div 1920 (dom_height rect) in
      Some (mkPoint ((clientX - dom_left rect) * scaleX)
                    ((clientY - dom_top rect) * scaleY))
  end.

(** Closed-interval containment: [lo <= v && v <= hi]. *)
Definition between (lo v hi : Q) : bool := Qle_bool lo v && Qle_bool v hi.

Definition isInFloorPlan (p : Props) (s : State) (x y : Q) : bool :=
  if negb (present (floorPlan p)) then false else
  let r := floorPlanPosition s in
  between (rx r) x (rx r + rwidth r) && between (ry r) y (ry r + rheight r).

Definition isInBackground (p : Props) (s : State) (x y : Q) : bool :=
  if negb (present (backgroundImage p)) then false else
  let r := backgroundPosition s in
  between (rx r) x (rx r + rwidth r) && between (ry r) y (ry r + rheight r).

Definition isInResizeHandle (p : Props) (s : State) (x y : Q) : bool :=
  if negb (present (floorPlan p)) then false else
  let r := floorPlanPosition s in
  let handleX := rx r + rwidth r - 20 in
  let handleY := ry r + rheight r - 20 in
  between handleX x (handleX + 20) && between handleY y (handleY + 20).

Definition isInBackgroundResizeHandle (p : Props) (s : State) (x y : Q) : bool :=
  if negb (present (backgroundImage p)) then false else
  let r := backgroundPosition s in
  let handleX := rx r + rwidth r - 20 in
  let handleY := ry r + rheight r - 20 in
  between handleX x (handleX + 20) && between handleY y (handleY + 20).

(** [handleMouseDown], at the canvas point [getMousePos] returned. *)
Definition handleMouseDown (p : Props) (s : State) (pt : Point) : State :=
  let x := px pt in
  let y := py pt in
  (* Priority: Floor plan handles first, then background handles *)
  if present (floorPlan p) && isInResizeHandle p s x y then
    setDragStart (mkPoint x y) (setIsResizing true s)
  else if present (backgroundImage p) && isInBackgroundResizeHandle p s x y then
    setDragStart (mkPoint x y) (setBackgroundResizing true s)
  else if present (floorPlan p) && isInFloorPlan p s x y then
    setDragStart (mkPoint (x - rx (floorPlanPosition s))
                          (y - ry (floorPlanPosition s)))
                 (setIsDragging true s)
  else if present (backgroundImage p) && isInBackground p s x y then
    setDragStart (mkPoint (x - rx (backgroundPosition s))
                          (y - ry (backgroundPosition s)))
                 (setBackgroundDragging true s)
  else s.

(** The hover cursor computed at the end of [handleMouseMove]. *)
Definition hover_cursor (p : Props) (s : State) (x y : Q) : Cursor :=
  if present (floorPlan p) && isInResizeHandle p s x y then CursorNwResize
  else if present (backgroundImage p) && isInBackgroundResizeHandle p s x y
  then CursorNwResize
  else if present (floorPlan p) && isInFloorPlan p s x y then CursorMove
  else if present (backgroundImage p) && isInBackground p s x y then CursorMove
  else CursorDefault.

(** [handleMouseMove], at the canvas point [getMousePos] returned. *)
Definition handleMouseMove (p : Props) (s : State) (pt : Point) : State :=
  let x := px pt in
  let y := py pt in
  let fp := floorPlanPosition s in
  let bg := backgroundPosition s in
  if isDragging s && present (floorPlan p) then
    setFloorPlanPosition
      (mkRect (Qmax 0 (Qmin (1080 - rwidth fp) (x - px (dragStart s))))
              (Qmax 200 (Qmin (1720 - rheight fp) (y - py (dragStart s))))
              (rwidth fp) (rheight fp)) s
  else if isResizing s && present (floorPlan p) then
    let newWidth := Qmax 100 (x - rx fp) in
    let newHeight := Qmax 75 (y - ry fp) in
    setFloorPlanPosition
      (mkRect (rx fp) (ry fp)
              (Qmin newWidth (1070 - rx fp))
              (Qmin newHeight (1910 - ry fp))) s
  else if backgroundDragging s && present (backgroundImage p) then
    setBackgroundPosition
      (mkRect (Qmax (-200) (Qmin 1280 (x - px (dragStart s))))
              (Qmax 0 (Qmin (1920 - rheight bg) (y - py (dragStart s))))
              (rwidth bg) (rheight bg)) s
  else if backgroundResizing s && present (backgroundImage p) then
    let newWidth := Qmax 400 (x - rx bg) in
    let newHeight := Qmax 300 (y - ry bg) in
    setBackgroundPosition
      (mkRect (rx bg) (ry bg)
              (Qmin newWidth (1480 - rx bg))
              (Qmin newHeight (2220 - ry bg))) s
  else
    (* Set cursor based on hover area when not dragging *)
    setCursor (hover_cursor p s x y) s.

(** [handleMouseUp], also bound to the mouse leaving the canvas. *)
Definition handleMouseUp (s : State) : State :=
  setCursor CursorDefault
    (setBackgroundResizing false
      (setBackgroundDragging false
        (setIsResizing false
          (setIsDragging false s)))).

(** Whether [handleMouseMove] takes one of its four gesture branches, that
    is, whether it calls a position setter (with a fresh object). *)
Definition moveMutates (p : Props) (s : State) : bool :=
  (isDragging s && present (floorPlan p))
  || (isResizing s && present (floorPlan p))
  || (backgroundDragging s && present (backgroundImage p))
  || (backgroundResizing s && present (backgroundImage p)).

(** The gesture states of the specification. *)
Inductive Gesture : Type :=
| Idle
| DraggingBackground
| ResizingBackground
| DraggingFloorPlan
| ResizingFloorPlan.

(** The gesture recorded in the four flags, read in the order in which
    [handleMouseMove] tests them. *)
Definition gestureState (s : State) : Gesture :=
  if isDragging s then DraggingFloorPlan
  else if isResizing s then ResizingFloorPlan
  else if backgroundDragging s then DraggingBackground
  else if backgroundResizing s then ResizingBackground
  else Idle.

(** The hit tests in the priority order of the specification, each with
    the gesture it starts. *)
Definition hit_tests (p : Props) (s : State)
  : list ((Q -> Q -> bool) * Gesture) :=
  [ (isInResizeHandle p s, ResizingFloorPlan);
    (isInBackgroundResizeHandle p s, ResizingBackground);
    (isInFloorPlan p s, DraggingFloorPlan);
    (isInBackground p s, DraggingBackground) ].

Fixpoint first_match (tests : list ((Q -> Q -> bool) * Gesture)) (x y : Q)
  : Gesture :=
  match tests with
  | [] => Idle
  | (test, g) :: rest => if test x y then g else first_match rest x y
  end.

(** Containment in an axis-aligned rectangle, in the words of the
    specification. *)
Definition in_rect (r : Rect) (x y : Q) : Prop :=
  rx r <= x <= rx r + rwidth r /\ ry r <= y <= ry r + rheight r.

(** The 20x20 box at the bottom-right corner of a rectangle. *)
Definition handle_box (r : Rect) : Rect :=
  mkRect (rx r + rwidth r - 20) (ry r + rheight r - 20) 20 20.

(** [redrawCanvas]: the frame drawn for the current props and state. *)
Definition redrawCanvas (propertyData : PropertyFormData) (p : Props)
    (s : State) (backgroundColor : option string) (showEditingHandles : bool)
  : option (list Call) :=
  Compositor.drawStoryCanvas propertyData
    (backgroundImage p) (floorPlan p)
    (if present (floorPlan p) then Some (floorPlanPosition s) else None)
    (if present (backgroundImage p) then Some (backgroundPosition s) else None)
    backgroundColor showEditingHandles.

(** The branch [handleMouseMove] takes: a flag counts only while the image
    of its layer is present. *)
Definition activeGesture (p : Props) (s : State) : Gesture :=
  if isDragging s && present (floorPlan p) then DraggingFloorPlan
  else if isResizing s && present (floorPlan p) then ResizingFloorPlan
  else if backgroundDragging s && present (backgroundImage p)
  then DraggingBackground
  else if backgroundResizing s && present (backgroundImage p)
  then ResizingBackground
  else Idle.

(** The permitted position bounds of the data model. *)
Definition floor_plan_in_bounds (r : Rect) : Prop :=
  (0 <= rx r /\ rx r <= 1080 - rwidth r) /\
  (200 <= ry r /\ ry r <= 1920 - rheight r).

Definition background_in_bounds (r : Rect) : Prop :=
  (-200 <= rx r /\ rx r <= 1280) /\
  (0 <= ry r /\ ry r <= 1920 - rheight r).

(** The drag invariant as the specification states it, at one handled
    pointer move. *)
Definition drag_bounds_claim (p : Props) (s : State) (pt : Point) : Prop :=
  let s' := handleMouseMove p s pt in
  (activeGesture p s = DraggingFloorPlan ->
     floor_plan_in_bounds (floorPlanPosition s')) /\
  (activeGesture p s = DraggingBackground ->
     background_in_bounds (backgroundPosition s')).

(** The resize invariant as the specification states it: at least the
    layer's minimum size, at most up to the canvas edge from the unchanged
    origin. *)
Definition resized_within (minWidth minHeight : Q) (before after : Rect) : Prop :=
  minWidth <= rwidth after /\ minHeight <= rheight after /\
  rx before + rwidth after <= 1080 /\ ry before + rheight after <= 1920.

Definition resize_bounds_claim (p : Props) (s : State) (pt : Point) : Prop :=
  let s' := handleMouseMove p s pt in
  (activeGesture p s = ResizingFloorPlan ->
     resized_within 100 75 (floorPlanPosition s) (floorPlanPosition s')) /\
  (activeGesture p s = ResizingBackground ->
     resized_within 400 300 (backgroundPosition s) (backgroundPosition s')).

(** The layer a gesture works on. *)
Definition gesture_layer (g : Gesture) : option Layer :=
  match g with
  | Idle => None
  | DraggingBackground | ResizingBackground => Some BackgroundLayer
  | DraggingFloorPlan | ResizingFloorPlan => Some FloorPlanLayer
  end.

Definition layer_present (p : Props) (l : Layer) : bool :=
  match l with
  | BackgroundLayer => present (backgroundImage p)
  | FloorPlanLayer => present (floorPlan p)
  end.

Definition layer_rect (s : State) (l : Layer) : Rect :=
  match l with
  | BackgroundLayer => backgroundPosition s
  | FloorPlanLayer => floorPlanPosition s
  end.

(** The orphaned-gesture policy as the specification states it: a gesture
    on layer [l] is recorded, the source of [l] is gone, and the next pointer
    move ends the gesture and leaves the rectangle of [l] alone. *)
Definition orphan_claim (p : Props) (s : State) (pt : Point) : Prop :=
  forall l,
    gesture_layer (gestureState s) = Some l ->
    layer_present p l = false ->
    gestureState (handleMouseMove p s pt) = Idle /\
    layer_rect (handleMouseMove p s pt) l = layer_rect s l.

End Controller.

(** ** The debounced position-change effect, on a virtual clock

    The effect of [StoryCanvas] arms [setTimeout(..., 100)] and returns
    [clearTimeout(timeoutId)] as its cleanup; its dependencies are the two
    position objects and the callback.  React runs the cleanup of the
    previous run and then the effect again whenever a dependency changed,
    which a position setter always causes since it is given a fresh object.
    Time is in milliseconds. *)

Module Debounce.

Import Controller.

Record Timer : Type := mkTimer {
  timer_id : nat;
  fires_at : Z;
  captured_floorPlan : FloorPlanPosition;     (* the closure's positions *)
  captured_background : BackgroundPosition
}.

(** One call of [onPositionChange]. *)
Record Notification : Type := mkNotification {
  emitted_at : Z;
  sent_floorPlan : FloorPlanPosition;
  sent_background : BackgroundPosition
}.

Record World : Type := mkWorld {
  props : Props;
  state : State;
  now : Z;
  timers : list Timer;            (* pending timeouts, in arming order *)
  next_id : nat;
  cleanup : option nat;           (* the timeoutId the last effect run holds *)
  emitted : list Notification     (* calls of the callback, oldest first *)
}.

Definition with_state (s : State) (w : World) : World :=
  {| props := props w; state := s; now := now w; timers := timers w;
     next_id := next_id w; cleanup := cleanup w; emitted := emitted w |}.

(** [clearTimeout(id)] *)
Definition clearTimeout (id : nat) (w : World) : World :=
  {| props := props w; state := state w; now := now w;
     timers := filter (fun t => negb (Nat.eqb (timer_id t) id)) (timers w);
     next_id := next_id w; cleanup := cleanup w; emitted := emitted w |}.

(** [setTimeout(callback, delay)], the callback closing over the current
    positions; the new id is stored for the cleanup. *)
Definition setTimeout (delay : Z) (w : World) : World :=
  {| props := props w; state := state w; now := now w;
     timers := timers w ++
       [ mkTimer (next_id w) (now w + delay)
           (floorPlanPosition (state w)) (backgroundPosition (state w)) ];
     next_id := S (next_id w);
     cleanup := Some (next_id w);
     emitted := emitted w |}.

(** One run of the effect after a dependency changed: the previous cleanup,
    then the effect body. *)
Definition runEffect (w : World) : World :=
  let w' := match cleanup w with
            | Some id => clearTimeout id w
            | None => w
            end in
  setTimeout 100 w'.

(** The timeout's callback: [if (onPositionChange) onPositionChange(...)]. *)
Definition fire (p : Props) (t : Timer) : list Notification :=
  if onPositionChange p
  then [ mkNotification (fires_at t) (captured_floorPlan t) (captured_background t) ]
  else [].

Definition due (t_now : Z) (t : Timer) : bool := (fires_at t <=? t_now)%Z.

(** The clock advances by [dt]; the timeouts that fall due run and are
    removed. *)
Definition elapse (dt : Z) (w : World) : World :=
  let t_now := (now w + dt)%Z in
  {| props := props w; state := state w; now := t_now;
     timers := filter (fun t => negb (due t_now t)) (timers w);
     next_id := next_id w; cleanup := cleanup w;
     emitted := emitted w ++ flat_map (fire (props w)) (filter (due t_now) (timers w)) |}.

Inductive Event : Type :=
| PointerDown (pt : Point)
| PointerMove (pt : Point)
| PointerUp                  (* also: the pointer leaving the canvas *)
| Elapse (dt : Z).

Definition step (w : World) (e : Event) : World :=
  match e with
  | PointerDown pt => with_state (handleMouseDown (props w) (state w) pt) w
  | PointerMove pt =>
      let w' := with_state (handleMouseMove (props w) (state w) pt) w in
      if moveMutates (props w) (state w) then runEffect w' else w'
  | PointerUp => with_state (handleMouseUp (state w)) w
  | Elapse dt => elapse dt w
  end.

Definition run (w : World) (trace : list Event) : World :=
  fold_left step trace w.

(** The component right after mounting: the effect has run once. *)
Definition mount (p : Props)
    (initialFloorPlanPosition : option FloorPlanPosition)
    (initialBackgroundPosition : option BackgroundPosition) : World :=
  runEffect
    {| props := p;
       state := initial_state initialFloorPlanPosition initialBackgroundPosition;
       now := 0; timers := []; next_id := 0; cleanup := None; emitted := [] |}.

(** A burst of pointer moves: a first move, then moves each following the
    previous one after the given delay. *)
Definition burst (first : Point) (rest : list (Z * Point)) : list Event :=
  PointerMove first
  :: flat_map (fun dp => [Elapse (fst dp); PointerMove (snd dp)]) rest.

(** At most one timeout is pending, and it is the one the cleanup holds. *)
Definition single_timer (w : World) : Prop :=
  timers w = [] \/
  exists t, timers w = [t] /\ cleanup w = Some (timer_id t).

(** The timeout of the latest effect run is pending, nothing has been
    emitted since [w0], and a gesture is still mutating. *)
Definition armed (w0 w : World) : Prop :=
  props w = props w0 /\
  emitted w = emitted w0 /\
  moveMutates (props w) (state w) = true /\
  exists id,
    timers w = [ mkTimer id (now w + 100)
                   (floorPlanPosition (state w)) (backgroundPosition (state w)) ] /\
    cleanup w = Some id.

End Debounce.

(** ** calculateMonthlyPayment *)

Module Payment.

(** [Math.round]: the nearest integer, ties upwards. *)
Definition Math_round (q : Q) : Q := inject_Z (Qfloor (q + (1 # 2))).

(** [Math.pow] at a whole exponent. *)
Definition Math_pow (base : Q) (exponent : Z) : Q := base ^ exponent.


Definition calculateMonthlyPayment
    (totalCost initialPayment rate : Q) (years : Z) : option Q :=
  if Qle_bool totalCost 0 || Qlt_bool initialPayment 0 || Qle_bool rate 0
  then Some 0
  else
    let loanAmount := totalCost - initialPayment in
    if Qle_bool loanAmount 0 then Some 0
    else
      let monthlyRate := rate / 100 / 12 in
      let totalPayments := (years * 12)%Z in
      let? monthlyPayment :=
        js_div (loanAmount * monthlyRate * Math_pow (1 + monthlyRate) totalPayments)
               (Math_pow (1 + monthlyRate) totalPayments - 1) in
      Some (Math_round (monthlyPayment * 100) / 100).



End Payment.

(** ** Concrete sessions, used to exercise the statements below *)

Module Scenario.

Import Controller.

Definition photo : File := Decodable (mkImage 1920 1080).
Definition plan : File := Decodable (mkImage 800 600).

Definition both_layers : Props := mkProps (Some photo) (Some plan) true.
Definition background_only : Props := mkProps (Some photo) None true.

(** A freshly mounted canvas with the default rectangles. *)
Definition mounted : State := initial_state None None.

(** Mounted with a background rectangle taller than the canvas, then the
    background body grabbed at (500, 500). *)
Definition tall_background_grabbed : State :=
  handleMouseDown both_layers
    (initial_state None (Some (mkRect 0 0 1080 2000))) (mkPoint 500 500).

(** From the defaults: the floor plan is narrowed to 100 wide by its handle,
    dragged against the right canvas edge, and its handle grabbed again.
    Every pointer position lies on the canvas. *)
Definition narrow_plan_at_edge : State :=
  Debounce.state
    (Debounce.run (Debounce.mount both_layers None None)
       [ Debounce.PointerDown (mkPoint 1030 1040);
         Debounce.PointerMove (mkPoint 540 1040);
         Debounce.PointerUp;
         Debounce.PointerDown (mkPoint 450 700);
         Debounce.PointerMove (mkPoint 1000 700);
         Debounce.PointerUp;
         Debounce.PointerDown (mkPoint 1070 1030) ]).

(** From the defaults: the floor-plan body grabbed at (500, 700). *)
Definition plan_grabbed : State :=
  handleMouseDown both_layers mounted (mkPoint 500 700).

End Scenario.

(** ** The rest of the generator page and of the canvas component *)

Module Page.

Import Controller.

(** The cursor that announces a gesture. *)
Definition cursor_for (g : Gesture) : Cursor :=
  match g with
  | Idle => CursorDefault
  | DraggingBackground | DraggingFloorPlan => CursorMove
  | ResizingBackground | ResizingFloorPlan => CursorNwResize
  end.

(** The calls that only the editing chrome makes: borders, handles and
    their glyph. *)
Definition is_chrome (c : Call) : bool :=
  match c with
  | SetStrokeStyle _ | SetLineWidth _ | SetLineDash _ | StrokeRect _ _ _ _
  | BeginPath | MoveTo _ _ | LineTo _ _ | Stroke => true
  | _ => false
  end.

(** Where the layers and the scrims end up in a frame. *)
Definition layout_of (calls : list Call) : list Rect * list Rect * list Rect :=
  (bitmaps BackgroundLayer (paint calls),
   bitmaps FloorPlanLayer (paint calls),
   scrims (paint calls)).

(** [r] lies inside [outer] shrunk by [inset] on every side. *)
Definition inside_inset (inset : Q) (outer r : Rect) : Prop :=
  rx outer + inset <= rx r /\ ry outer + inset <= ry r /\
  rx r + rwidth r <= rx outer + rwidth outer - inset /\
  ry r + rheight r <= ry outer + rheight outer - inset.

(** [downloadImage]: the frame drawn into the temporary canvas. *)
Definition downloadImage (formValues : PropertyFormData) (p : Props)
    (backgroundColor : option string) : option (list Call) :=
  Compositor.drawStoryCanvas formValues
    (backgroundImage p) (floorPlan p)
    (if present (floorPlan p) then Some (mkRect 440 650 600 400) else None)
    (if present (backgroundImage p) then Some (mkRect 0 150 1080 1350) else None)
    backgroundColor
    false (* No editing handles *).



(** The position invariant of the background in a session that starts from
    a rectangle satisfying it: the drag range, and sizes between what the
    resize caps allow. *)
Definition background_invariant (r : Rect) : Prop :=
  (-200 <= rx r /\ rx r <= 1280) /\ (0 <= ry r /\ ry r <= 1620) /\
  (200 <= rwidth r /\ rwidth r <= 1680) /\
  (300 <= rheight r /\ rheight r <= 2220).

(** The pending timeout, if any, closes over the rectangles the component
    currently has. *)
Definition timers_up_to_date (w : Debounce.World) : Prop :=
  Debounce.timers w = [] \/
  exists id due_at,
    Debounce.timers w =
      [ Debounce.mkTimer id due_at
          (floorPlanPosition (Debounce.state w))
          (backgroundPosition (Debounce.state w)) ] /\
    Debounce.cleanup w = Some id.

(** Form values of a sample listing. *)
Definition sample_data : PropertyFormData :=
  {| propertyAddress := "Lenina 1";
     propertyType := "2k";
     propertyArea := 54;
     totalCost := 6000000;
     initialPayment := 1200000;
     bankRate := 12;
     monthlyPayment := 49373.4;
     selectedBank := "sberbank" |}.

End Page.

(** ** The in-memory template store *)

Module Storage.

(** A JavaScript [Map] with string keys: insertion order is kept, and
    setting an existing key replaces its value in place. *)
Definition JsMap (V : Type) : Type := list (string * V).

Fixpoint Map_get {V : Type} (k : string) (m : JsMap V) : option V :=
  match m with
  | [] => None
  | (k', v) :: rest => if String.eqb k k' then Some v else Map_get k rest
  end.

Fixpoint Map_set {V : Type} (k : string) (v : V) (m : JsMap V) : JsMap V :=
  match m with
  | [] => [(k, v)]
  | (k', v') :: rest =>
      if String.eqb k k' then (k, v) :: rest else (k', v') :: Map_set k v rest
  end.

Definition Map_values {V : Type} (m : JsMap V) : list V := map snd m.

Definition Map_keys {V : Type} (m : JsMap V) : list string := map fst m.

Section MemStorage.

(** The fields of a template other than the four the store touches. *)
Variable Fields : Type.

Record InsertStoryTemplate : Type := mkInsertStoryTemplate {
  insert_fields : Fields;
  insert_backgroundImageUrl : option string;   (* [None]: undefined or null *)
  insert_floorPlanUrl : option string
}.

Record StoryTemplate : Type := mkStoryTemplate {
  template_fields : Fields;
  template_id : string;
  createdAt : string;
  backgroundImageUrl : option string;          (* [None]: null *)
  floorPlanUrl : option string
}.

(** [this.templates] *)
Definition MemStorage : Type := JsMap StoryTemplate.

(** [new MemStorage()] *)
Definition empty : MemStorage := [].

Definition getTemplate (id : string) (st : MemStorage) : option StoryTemplate :=
  Map_get id st.

(** [createTemplate], given the identifier [randomUUID()] returns and the
    time stamp [new Date().toISOString()] gives: the stored template and the
    new store. *)
Definition createTemplate (uuid now_iso : string)
    (insertTemplate : InsertStoryTemplate) (st : MemStorage)
  : StoryTemplate * MemStorage :=
  let template :=
    {| template_fields := insert_fields insertTemplate;
       template_id := uuid;
       createdAt := now_iso;
       backgroundImageUrl :=
         truthy_string (insert_backgroundImageUrl insertTemplate);
       floorPlanUrl := truthy_string (insert_floorPlanUrl insertTemplate) |} in
  (template, Map_set uuid template st).

Definition listTemplates (st : MemStorage) : list StoryTemplate :=
  Map_values st.

(** One request to create a template, with what the environment supplies. *)
Record Request : Type := mkRequest {
  request_uuid : string;
  request_time : string;
  request_body : InsertStoryTemplate
}.

Definition serve (st : MemStorage) (r : Request) : MemStorage :=
  snd (createTemplate (request_uuid r) (request_time r) (request_body r) st).

(** The store after a sequence of requests on a fresh one. *)
Definition after (requests : list Request) : MemStorage :=
  fold_left serve requests empty.

(** Every key holds a template carrying that key as its identifier, and no
    key occurs twice. *)
Definition well_keyed (st : MemStorage) : Prop :=
  NoDup (Map_keys st) /\ Forall (fun kv => template_id (snd kv) = fst kv) st.

End MemStorage.

End Storage.

(** * Properties *)

(** ** Numbers and rectangles *)

Lemma Qlt_bool_iff (a b : Q) : Qlt_bool a b = true <-> a < b.
Proof.
  unfold Qlt_bool. rewrite negb_true_iff.
  split; intro H.
  - apply Qnot_le_lt. intro L. apply Qle_bool_iff in L. congruence.
  - destruct (Qle_bool b a) eqn:E; [|reflexivity].
    apply Qle_bool_iff in E. exfalso. apply (Qlt_not_le _ _ H E).
Qed.

Lemma Qlt_bool_false (a b : Q) : Qlt_bool a b = false <-> b <= a.
Proof.
  unfold Qlt_bool. rewrite negb_false_iff. apply Qle_bool_iff.
Qed.


Lemma js_div_some (a b : Q) : ~ b == 0 -> js_div a b = Some (a / b).
Proof.
  intro H. unfold js_div.
  destruct (Qeq_bool b 0) eqn:E; [|reflexivity].
  apply Qeq_bool_eq in E. contradiction.
Qed.

Lemma rect_eqb_iff (a b : Rect) : rect_eqb a b = true <-> rect_eq a b.
Proof.
  unfold rect_eqb, rect_eq. rewrite !andb_true_iff, !Qeq_bool_iff. tauto.
Qed.

Lemma rect_eq_refl (a : Rect) : rect_eq a a.
Proof. unfold rect_eq. repeat split; reflexivity. Qed.

Lemma Qdiv_pos (a b : Q) : 0 < a -> 0 < b -> 0 < a / b.
Proof.
  intros Ha Hb. apply Qlt_shift_div_l; [assumption|]. lra.
Qed.

Lemma Qdiv_mul_cancel (a b : Q) : ~ b == 0 -> (a / b) * b == a.
Proof. intro H. field. assumption. Qed.

(** Clamping [v] into [lo, hi] by [max lo (min hi v)]. *)
Lemma clamp_lower (lo hi v : Q) : lo <= Qmax lo (Qmin hi v).
Proof. apply Q.le_max_l. Qed.

Lemma clamp_upper (lo hi v : Q) : lo <= hi -> Qmax lo (Qmin hi v) <= hi.
Proof.
  intro H. apply Q.max_lub; [assumption | apply Q.le_min_l].
Qed.

Lemma clamp_id (lo hi v : Q) : lo <= v -> v <= hi -> Qmax lo (Qmin hi v) == v.
Proof.
  intros H1 H2.
  rewrite (Q.min_r hi v) by assumption.
  apply Q.max_r. assumption.
Qed.

Lemma clamp_collapsed (lo hi v : Q) : hi <= lo -> Qmax lo (Qmin hi v) == lo.
Proof.
  intro H. apply Q.max_l.
  apply Qle_trans with hi; [apply Q.le_min_l | assumption].
Qed.

(** ** Aspect fit *)

Lemma aspect_fit_spec_within (iw ih cw ch : Q) :
  0 < iw -> 0 < ih -> 0 < cw -> 0 < ch ->
  within_box (aspect_fit_spec iw ih cw ch) cw ch.
Proof.
  intros Hiw Hih Hcw Hch.
  assert (Hia : 0 < iw / ih) by (apply Qdiv_pos; assumption).
  assert (Eca : (cw / ch) * ch == cw) by (apply Qdiv_mul_cancel; lra).
  unfold aspect_fit_spec, within_box.
  destruct (Qlt_le_dec (cw / ch) (iw / ih)) as [L|L]; cbn [rx ry rwidth rheight].
  - assert (Eh : (cw / (iw / ih)) * (iw / ih) == cw)
      by (apply Qdiv_mul_cancel; lra).
    assert (Hh : 0 < cw / (iw / ih)) by (apply Qdiv_pos; assumption).
    assert (Hle : cw / (iw / ih) <= ch).
    { apply Qnot_lt_le. intro C.
      assert (ch * (iw / ih) < cw / (iw / ih) * (iw / ih))
        by (apply Qmult_lt_compat_r; assumption).
      assert (cw / ch * ch < iw / ih * ch)
        by (apply Qmult_lt_compat_r; assumption).
      lra. }
    set (h := cw / (iw / ih)) in *.
    assert ((ch - h) / 2 == (ch - h) * (1 # 2)) as -> by (field).
    repeat split; lra.
  - assert (Hle : ch * (iw / ih) <= cw).
    { assert (iw / ih * ch <= cw / ch * ch)
        by (apply Qmult_le_compat_r; lra).
      lra. }
    set (w := ch * (iw / ih)) in *.
    assert ((cw - w) / 2 == (cw - w) * (1 # 2)) as -> by (field).
    repeat split; lra.
Qed.

Lemma calculateImageFit_refines (iw ih cw ch : Q) :
  0 < iw -> 0 < ih -> 0 < cw -> 0 < ch ->
  calculateImageFit (mkImage iw ih) cw ch = Some (aspect_fit_spec iw ih cw ch).
Proof.
  intros Hiw Hih Hcw Hch.
  assert (Hia : 0 < iw / ih) by (apply Qdiv_pos; assumption).
  unfold calculateImageFit, aspect_fit_spec. cbn [img_width img_height].
  rewrite (js_div_some iw ih) by lra.
  rewrite (js_div_some cw ch) by lra.
  cbn [bind].
  destruct (Qlt_le_dec (cw / ch) (iw / ih)) as [L|L].
  - apply Qlt_bool_iff in L. rewrite L.
    rewrite (js_div_some cw (iw / ih)) by lra.
    reflexivity.
  - apply Qlt_bool_false in L. rewrite L. reflexivity.
Qed.

(** C6.  For an image and a container box of positive dimensions,
    [calculateImageFit] returns the rectangle of the aspect-fit formula
    (box width and [containerW / ia] when [ia > ca], box height and
    [containerH * ia] otherwise), centred on the slack axis and flush on the
    other; this rectangle lies entirely within the container; and an
    800x600 image in a 1600x900 box gives [{x:200, y:0, width:1200,
    height:900}]. *)
Theorem calculateImageFit_aspect_fit :
  (forall iw ih cw ch : Q,
     0 < iw -> 0 < ih -> 0 < cw -> 0 < ch ->
     exists r,
       calculateImageFit (mkImage iw ih) cw ch = Some r /\
       r = aspect_fit_spec iw ih cw ch /\
       (cw / ch < iw / ih ->
          rwidth r == cw /\ rheight r == cw / (iw / ih) /\
          rx r == 0 /\ ry r == ch - (ry r + rheight r)) /\
       (iw / ih <= cw / ch ->
          rheight r == ch /\ rwidth r == ch * (iw / ih) /\
          ry r == 0 /\ rx r == cw - (rx r + rwidth r)) /\
       within_box r cw ch) /\
  (exists r,
     calculateImageFit (mkImage 800 600) 1600 900 = Some r /\
     rect_eq r (mkRect 200 0 1200 900)).
Proof.
  split.
  - intros iw ih cw ch Hiw Hih Hcw Hch.
    exists (aspect_fit_spec iw ih cw ch).
    split; [apply calculateImageFit_refines; assumption|].
    split; [reflexivity|].
    split; [|split].
    + intro L. unfold aspect_fit_spec.
      destruct (Qlt_le_dec (cw / ch) (iw / ih)) as [L'|L'].
      * cbn [rx ry rwidth rheight].
        split; [reflexivity|]. split; [reflexivity|]. split; [reflexivity|].
        generalize (cw / (iw / ih)). intro h. field.
      * exfalso. apply (Qlt_not_le _ _ L L').
    + intro L. unfold aspect_fit_spec.
      destruct (Qlt_le_dec (cw / ch) (iw / ih)) as [L'|L'].
      * exfalso. apply (Qlt_not_le _ _ L' L).
      * cbn [rx ry rwidth rheight].
        split; [reflexivity|]. split; [reflexivity|]. split; [reflexivity|].
        generalize (ch * (iw / ih)). intro w. field.
    + apply aspect_fit_spec_within; assumption.
  - eexists. split; [vm_compute; reflexivity|].
    unfold rect_eq. cbn. repeat split; reflexivity.
Qed.

Lemma calculateImageFit_aspect_fit_witness :
  exists r,
    calculateImageFit (mkImage 1920 1080) 1080 1344 = Some r /\
    rwidth r == 1080 /\ within_box r 1080 1344.
Proof.
  destruct (proj1 calculateImageFit_aspect_fit 1920 1080 1080 1344)
    as [r [E [_ [W [_ B]]]]]; try reflexivity.
  exists r. split; [exact E|]. split; [|exact B].
  apply W. reflexivity.
Defined.

(** ** Hit testing and the start of a gesture *)

Section HitTesting.

Import Controller.

Variable p : Props.
Variable s : State.

Lemma between_iff (lo v hi : Q) : between lo v hi = true <-> lo <= v <= hi.
Proof.
  unfold between. rewrite andb_true_iff, !Qle_bool_iff. tauto.
Qed.

Lemma isInFloorPlan_iff (x y : Q) :
  isInFloorPlan p s x y = true <->
  present (floorPlan p) = true /\ in_rect (floorPlanPosition s) x y.
Proof.
  unfold isInFloorPlan, in_rect.
  destruct (present (floorPlan p)); cbn [negb].
  - rewrite andb_true_iff, !between_iff. tauto.
  - split; [discriminate | intros [H _]; discriminate].
Qed.

Lemma isInBackground_iff (x y : Q) :
  isInBackground p s x y = true <->
  present (backgroundImage p) = true /\ in_rect (backgroundPosition s) x y.
Proof.
  unfold isInBackground, in_rect.
  destruct (present (backgroundImage p)); cbn [negb].
  - rewrite andb_true_iff, !between_iff. tauto.
  - split; [discriminate | intros [H _]; discriminate].
Qed.

Lemma isInResizeHandle_iff (x y : Q) :
  isInResizeHandle p s x y = true <->
  present (floorPlan p) = true /\
  in_rect (handle_box (floorPlanPosition s)) x y.
Proof.
  unfold isInResizeHandle, in_rect, handle_box. cbn [rx ry rwidth rheight].
  destruct (present (floorPlan p)); cbn [negb].
  - rewrite andb_true_iff, !between_iff. tauto.
  - split; [discriminate | intros [H _]; discriminate].
Qed.

Lemma isInBackgroundResizeHandle_iff (x y : Q) :
  isInBackgroundResizeHandle p s x y = true <->
  present (backgroundImage p) = true /\
  in_rect (handle_box (backgroundPosition s)) x y.
Proof.
  unfold isInBackgroundResizeHandle, in_rect, handle_box.
  cbn [rx ry rwidth rheight].
  destruct (present (backgroundImage p)); cbn [negb].
  - rewrite andb_true_iff, !between_iff. tauto.
  - split; [discriminate | intros [H _]; discriminate].
Qed.

(** A hit test that succeeds implies that the image is there, so the
    [floorPlan &&] and [backgroundImage &&] guards of the handler are
    redundant. *)
Lemma guard_floorPlan (b : bool) :
  (b = true -> present (floorPlan p) = true) ->
  present (floorPlan p) && b = b.
Proof.
  intro H. destruct b; [rewrite H by reflexivity; reflexivity|].
  apply andb_false_r.
Qed.

Lemma guard_background (b : bool) :
  (b = true -> present (backgroundImage p) = true) ->
  present (backgroundImage p) && b = b.
Proof.
  intro H. destruct b; [rewrite H by reflexivity; reflexivity|].
  apply andb_false_r.
Qed.

Lemma idle_flags :
  gestureState s = Idle ->
  isDragging s = false /\ isResizing s = false /\
  backgroundDragging s = false /\ backgroundResizing s = false.
Proof.
  unfold gestureState.
  destruct (isDragging s), (isResizing s), (backgroundDragging s),
    (backgroundResizing s); intro H; try discriminate H; repeat split.
Qed.

Lemma handleMouseDown_first_match (pt : Point) :
  gestureState s = Idle ->
  gestureState (handleMouseDown p s pt) = first_match (hit_tests p s) (px pt) (py pt).
Proof.
  intro HI. destruct (idle_flags HI) as [D [R [BD BR]]].
  unfold handleMouseDown, hit_tests, first_match.
  rewrite (guard_floorPlan (isInResizeHandle p s (px pt) (py pt)))
    by (intro H; apply isInResizeHandle_iff in H; tauto).
  rewrite (guard_background (isInBackgroundResizeHandle p s (px pt) (py pt)))
    by (intro H; apply isInBackgroundResizeHandle_iff in H; tauto).
  rewrite (guard_floorPlan (isInFloorPlan p s (px pt) (py pt)))
    by (intro H; apply isInFloorPlan_iff in H; tauto).
  rewrite (guard_background (isInBackground p s (px pt) (py pt)))
    by (intro H; apply isInBackground_iff in H; tauto).
  destruct (isInResizeHandle p s (px pt) (py pt)).
  { unfold gestureState; cbn. rewrite D. reflexivity. }
  destruct (isInBackgroundResizeHandle p s (px pt) (py pt)).
  { unfold gestureState; cbn. rewrite D, R, BD. reflexivity. }
  destruct (isInFloorPlan p s (px pt) (py pt)).
  { unfold gestureState; cbn. reflexivity. }
  destruct (isInBackground p s (px pt) (py pt)).
  { unfold gestureState; cbn. rewrite D, R. reflexivity. }
  exact HI.
Qed.

Lemma handleMouseDown_miss (pt : Point) :
  first_match (hit_tests p s) (px pt) (py pt) = Idle ->
  handleMouseDown p s pt = s.
Proof.
  unfold handleMouseDown, hit_tests, first_match.
  destruct (isInResizeHandle p s (px pt) (py pt)); [discriminate|].
  destruct (isInBackgroundResizeHandle p s (px pt) (py pt)); [discriminate|].
  destruct (isInFloorPlan p s (px pt) (py pt)); [discriminate|].
  destruct (isInBackground p s (px pt) (py pt)); [discriminate|].
  rewrite !andb_false_r. reflexivity.
Qed.

End HitTesting.

(** C2.  From the idle state, pointer-down starts the gesture of the first
    matching hit test in the order floor-plan resize handle, background
    resize handle, floor-plan body, background body; each test is a closed
    rectangle containment check (the handles being the 20x20 box at the
    bottom-right corner of the layer's rectangle, and a layer without image
    matching nothing); a point strictly inside the floor-plan handle starts
    [ResizingFloorPlan] whatever the background does; and when no test
    matches the state is unchanged. *)
Theorem handleMouseDown_priority
    (p : Controller.Props) (s : Controller.State) (pt : Controller.Point) :
  Controller.gestureState s = Controller.Idle ->
  let x := Controller.px pt in
  let y := Controller.py pt in
  let fp := Controller.floorPlanPosition s in
  let bg := Controller.backgroundPosition s in
  let started := Controller.gestureState (Controller.handleMouseDown p s pt) in
  (* the four tests *)
  (Controller.isInResizeHandle p s x y = true <->
     Controller.present (Controller.floorPlan p) = true /\
     Controller.in_rect (Controller.handle_box fp) x y) /\
  (Controller.isInBackgroundResizeHandle p s x y = true <->
     Controller.present (Controller.backgroundImage p) = true /\
     Controller.in_rect (Controller.handle_box bg) x y) /\
  (Controller.isInFloorPlan p s x y = true <->
     Controller.present (Controller.floorPlan p) = true /\
     Controller.in_rect fp x y) /\
  (Controller.isInBackground p s x y = true <->
     Controller.present (Controller.backgroundImage p) = true /\
     Controller.in_rect bg x y) /\
  (* first match wins *)
  started = Controller.first_match (Controller.hit_tests p s) x y /\
  (* the floor-plan handle beats every background test *)
  (Controller.present (Controller.floorPlan p) = true ->
   rx fp + rwidth fp - 20 < x < rx fp + rwidth fp ->
   ry fp + rheight fp - 20 < y < ry fp + rheight fp ->
   started = Controller.ResizingFloorPlan) /\
  (* no match, no gesture *)
  (Controller.first_match (Controller.hit_tests p s) x y = Controller.Idle ->
   Controller.handleMouseDown p s pt = s /\ started = Controller.Idle).
Proof.
  intros HI x y fp bg started.
  split; [apply isInResizeHandle_iff|].
  split; [apply isInBackgroundResizeHandle_iff|].
  split; [apply isInFloorPlan_iff|].
  split; [apply isInBackground_iff|].
  assert (E : started = Controller.first_match (Controller.hit_tests p s) x y)
    by (apply handleMouseDown_first_match; exact HI).
  split; [exact E|].
  split.
  - intros Hfp Hx Hy. rewrite E.
    assert (T : Controller.isInResizeHandle p s x y = true).
    { apply isInResizeHandle_iff. split; [exact Hfp|].
      unfold Controller.in_rect, Controller.handle_box.
      cbn [rx ry rwidth rheight]. fold fp. lra. }
    cbn [Controller.hit_tests Controller.first_match]. rewrite T. reflexivity.
  - intro M. split.
    + apply handleMouseDown_miss. exact M.
    + rewrite E. exact M.
Qed.

(** ** Pointer moves: dragging and resizing *)

Section PointerMove.

Import Controller.

Variable p : Props.
Variable s : State.
Variable pt : Point.

Let fp := floorPlanPosition s.
Let bg := backgroundPosition s.

(** The four gesture branches of [handleMouseMove], selected by
    [activeGesture]. *)
Lemma move_DraggingFloorPlan :
  activeGesture p s = DraggingFloorPlan ->
  handleMouseMove p s pt =
  setFloorPlanPosition
    (mkRect (Qmax 0 (Qmin (1080 - rwidth fp) (px pt - px (dragStart s))))
            (Qmax 200 (Qmin (1720 - rheight fp) (py pt - py (dragStart s))))
            (rwidth fp) (rheight fp)) s.
Proof.
  unfold activeGesture, handleMouseMove, fp.
  destruct (isDragging s && present (floorPlan p)); [reflexivity|].
  destruct (isResizing s && present (floorPlan p)); [discriminate|].
  destruct (backgroundDragging s && present (backgroundImage p)); [discriminate|].
  destruct (backgroundResizing s && present (backgroundImage p)); discriminate.
Qed.

Lemma move_ResizingFloorPlan :
  activeGesture p s = ResizingFloorPlan ->
  handleMouseMove p s pt =
  setFloorPlanPosition
    (mkRect (rx fp) (ry fp)
            (Qmin (Qmax 100 (px pt - rx fp)) (1070 - rx fp))
            (Qmin (Qmax 75 (py pt - ry fp)) (1910 - ry fp))) s.
Proof.
  unfold activeGesture, handleMouseMove, fp.
  destruct (isDragging s && present (floorPlan p)); [discriminate|].
  destruct (isResizing s && present (floorPlan p)); [reflexivity|].
  destruct (backgroundDragging s && present (backgroundImage p)); [discriminate|].
  destruct (backgroundResizing s && present (backgroundImage p)); discriminate.
Qed.

Lemma move_DraggingBackground :
  activeGesture p s = DraggingBackground ->
  handleMouseMove p s pt =
  setBackgroundPosition
    (mkRect (Qmax (-200) (Qmin 1280 (px pt - px (dragStart s))))
            (Qmax 0 (Qmin (1920 - rheight bg) (py pt - py (dragStart s))))
            (rwidth bg) (rheight bg)) s.
Proof.
  unfold activeGesture, handleMouseMove, bg.
  destruct (isDragging s && present (floorPlan p)); [discriminate|].
  destruct (isResizing s && present (floorPlan p)); [discriminate|].
  destruct (backgroundDragging s && present (backgroundImage p)); [reflexivity|].
  destruct (backgroundResizing s && present (backgroundImage p)); discriminate.
Qed.

Lemma move_ResizingBackground :
  activeGesture p s = ResizingBackground ->
  handleMouseMove p s pt =
  setBackgroundPosition
    (mkRect (rx bg) (ry bg)
            (Qmin (Qmax 400 (px pt - rx bg)) (1480 - rx bg))
            (Qmin (Qmax 300 (py pt - ry bg)) (2220 - ry bg))) s.
Proof.
  unfold activeGesture, handleMouseMove, bg.
  destruct (isDragging s && present (floorPlan p)); [discriminate|].
  destruct (isResizing s && present (floorPlan p)); [discriminate|].
  destruct (backgroundDragging s && present (backgroundImage p)); [discriminate|].
  destruct (backgroundResizing s && present (backgroundImage p));
    [reflexivity | discriminate].
Qed.

Lemma move_Idle :
  activeGesture p s = Idle ->
  handleMouseMove p s pt = setCursor (hover_cursor p s (px pt) (py pt)) s.
Proof.
  unfold activeGesture, handleMouseMove.
  destruct (isDragging s && present (floorPlan p)); [discriminate|].
  destruct (isResizing s && present (floorPlan p)); [discriminate|].
  destruct (backgroundDragging s && present (backgroundImage p)); [discriminate|].
  destruct (backgroundResizing s && present (backgroundImage p));
    [discriminate | reflexivity].
Qed.

(** No branch of [handleMouseMove] touches a gesture flag or the grab
    offset. *)
Lemma move_keeps_flags :
  let s' := handleMouseMove p s pt in
  isDragging s' = isDragging s /\ isResizing s' = isResizing s /\
  backgroundDragging s' = backgroundDragging s /\
  backgroundResizing s' = backgroundResizing s /\
  dragStart s' = dragStart s.
Proof.
  unfold handleMouseMove.
  destruct (isDragging s && present (floorPlan p)); [cbn; tauto|].
  destruct (isResizing s && present (floorPlan p)); [cbn; tauto|].
  destruct (backgroundDragging s && present (backgroundImage p)); [cbn; tauto|].
  destruct (backgroundResizing s && present (backgroundImage p)); cbn; tauto.
Qed.

Lemma move_keeps_gestureState :
  gestureState (handleMouseMove p s pt) = gestureState s.
Proof.
  destruct move_keeps_flags as [D [R [BD [BR _]]]].
  unfold gestureState. rewrite D, R, BD, BR. reflexivity.
Qed.

(** A layer whose image is absent keeps its rectangle. *)
Lemma move_keeps_absent_layer (l : Layer) :
  layer_present p l = false ->
  layer_rect (handleMouseMove p s pt) l = layer_rect s l.
Proof.
  intro A. unfold handleMouseMove.
  destruct l; cbn [layer_present layer_rect] in *; rewrite A;
    rewrite ?andb_false_r.
  - destruct (isDragging s && present (floorPlan p)); [reflexivity|].
    destruct (isResizing s && present (floorPlan p)); reflexivity.
  - destruct (backgroundDragging s && present (backgroundImage p));
      [reflexivity|].
    destruct (backgroundResizing s && present (backgroundImage p)); reflexivity.
Qed.

End PointerMove.

(** C3 (amended).  A pointer move handled while a drag is active keeps the
    size of the dragged rectangle and always enforces the lower position
    bounds (floor plan [x >= 0], [y >= 200]; background [-200 <= x <= 1280],
    [y >= 0]).  The upper bounds [x <= 1080 - width] and
    [y <= 1920 - height] follow when the rectangle leaves room for them
    (floor plan no wider than 1080 and no taller than 1720, background no
    taller than 1920); the floor plan then even stays above
    [1720 - height] when it is no taller than 1520. *)
Theorem drag_respects_bounds
    (p : Controller.Props) (s : Controller.State) (pt : Controller.Point) :
  let fp := Controller.floorPlanPosition s in
  let bg := Controller.backgroundPosition s in
  let fp' := Controller.floorPlanPosition (Controller.handleMouseMove p s pt) in
  let bg' := Controller.backgroundPosition (Controller.handleMouseMove p s pt) in
  (Controller.activeGesture p s = Controller.DraggingFloorPlan ->
     rwidth fp' = rwidth fp /\ rheight fp' = rheight fp /\
     0 <= rx fp' /\ 200 <= ry fp' /\
     (rheight fp <= 1520 -> ry fp' <= 1720 - rheight fp') /\
     (rwidth fp <= 1080 -> rheight fp <= 1720 ->
        Controller.floor_plan_in_bounds fp')) /\
  (Controller.activeGesture p s = Controller.DraggingBackground ->
     rwidth bg' = rwidth bg /\ rheight bg' = rheight bg /\
     -200 <= rx bg' /\ rx bg' <= 1280 /\ 0 <= ry bg' /\
     (rheight bg <= 1920 -> Controller.background_in_bounds bg')).
Proof.
  intros fp bg fp' bg'. split; intro G.
  - subst fp'. rewrite (move_DraggingFloorPlan p s pt G).
    cbn [Controller.setFloorPlanPosition Controller.floorPlanPosition
         rx ry rwidth rheight]. fold fp.
    split; [reflexivity|]. split; [reflexivity|].
    split; [apply clamp_lower|]. split; [apply clamp_lower|].
    split.
    + intro H. apply clamp_upper. lra.
    + intros Hw Hh. unfold Controller.floor_plan_in_bounds.
      cbn [rx ry rwidth rheight].
      split; split; try apply clamp_lower.
      * apply clamp_upper. lra.
      * destruct (Qlt_le_dec (rheight fp) 1520) as [L|L].
        -- apply Qle_trans with (1720 - rheight fp);
             [apply clamp_upper; lra | lra].
        -- rewrite clamp_collapsed by lra. lra.
  - subst bg'. rewrite (move_DraggingBackground p s pt G).
    cbn [Controller.setBackgroundPosition Controller.backgroundPosition
         rx ry rwidth rheight]. fold bg.
    split; [reflexivity|]. split; [reflexivity|].
    split; [apply clamp_lower|].
    split; [apply clamp_upper; lra|].
    split; [apply clamp_lower|].
    intro Hh. unfold Controller.background_in_bounds.
    cbn [rx ry rwidth rheight].
    split; split; try apply clamp_lower; apply clamp_upper; lra.
Qed.

(** C4 (amended).  A pointer move handled while a resize is active keeps the
    origin and caps the new size by the layer's own limit from that origin:
    [x + width <= 1070] and [y + height <= 1910] for the floor plan (inside
    the canvas), [x + width <= 1480] and [y + height <= 2220] for the
    background (past the canvas edge).  The new size is at least the
    layer's minimum (100x75, 400x300) whenever the origin leaves room for
    the minimum under that cap, and at least the smaller of the two
    otherwise. *)
Theorem resize_respects_limits
    (p : Controller.Props) (s : Controller.State) (pt : Controller.Point) :
  let fp := Controller.floorPlanPosition s in
  let bg := Controller.backgroundPosition s in
  let fp' := Controller.floorPlanPosition (Controller.handleMouseMove p s pt) in
  let bg' := Controller.backgroundPosition (Controller.handleMouseMove p s pt) in
  (Controller.activeGesture p s = Controller.ResizingFloorPlan ->
     rx fp' = rx fp /\ ry fp' = ry fp /\
     rx fp + rwidth fp' <= 1070 /\ ry fp + rheight fp' <= 1910 /\
     Qmin 100 (1070 - rx fp) <= rwidth fp' /\
     Qmin 75 (1910 - ry fp) <= rheight fp' /\
     (rx fp <= 970 -> 100 <= rwidth fp') /\
     (ry fp <= 1835 -> 75 <= rheight fp') /\
     (rx fp <= 970 -> ry fp <= 1835 ->
        Controller.resized_within 100 75 fp fp')) /\
  (Controller.activeGesture p s = Controller.ResizingBackground ->
     rx bg' = rx bg /\ ry bg' = ry bg /\
     rx bg + rwidth bg' <= 1480 /\ ry bg + rheight bg' <= 2220 /\
     Qmin 400 (1480 - rx bg) <= rwidth bg' /\
     Qmin 300 (2220 - ry bg) <= rheight bg' /\
     (rx bg <= 1080 -> 400 <= rwidth bg') /\
     (ry bg <= 1920 -> 300 <= rheight bg')).
Proof.
  intros fp bg fp' bg'. split; intro G.
  - subst fp'. rewrite (move_ResizingFloorPlan p s pt G).
    cbn [Controller.setFloorPlanPosition Controller.floorPlanPosition
         rx ry rwidth rheight]. fold fp.
    set (w := Qmin (Qmax 100 (Controller.px pt - rx fp)) (1070 - rx fp)).
    set (h := Qmin (Qmax 75 (Controller.py pt - ry fp)) (1910 - ry fp)).
    assert (Hw1 : w <= 1070 - rx fp) by apply Q.le_min_r.
    assert (Hh1 : h <= 1910 - ry fp) by apply Q.le_min_r.
    assert (Hw2 : Qmin 100 (1070 - rx fp) <= w)
      by (apply Q.min_le_compat_r; apply Q.le_max_l).
    assert (Hh2 : Qmin 75 (1910 - ry fp) <= h)
      by (apply Q.min_le_compat_r; apply Q.le_max_l).
    assert (Hw3 : rx fp <= 970 -> 100 <= w).
    { intro H. apply Qle_trans with (Qmin 100 (1070 - rx fp));
        [rewrite Q.min_l by lra; lra | exact Hw2]. }
    assert (Hh3 : ry fp <= 1835 -> 75 <= h).
    { intro H. apply Qle_trans with (Qmin 75 (1910 - ry fp));
        [rewrite Q.min_l by lra; lra | exact Hh2]. }
    split; [reflexivity|]. split; [reflexivity|].
    split; [lra|]. split; [lra|].
    split; [exact Hw2|]. split; [exact Hh2|].
    split; [exact Hw3|]. split; [exact Hh3|].
    intros Hx Hy. unfold Controller.resized_within. cbn [rx ry rwidth rheight].
    specialize (Hw3 Hx). specialize (Hh3 Hy).
    repeat split; lra.
  - subst bg'. rewrite (move_ResizingBackground p s pt G).
    cbn [Controller.setBackgroundPosition Controller.backgroundPosition
         rx ry rwidth rheight]. fold bg.
    set (w := Qmin (Qmax 400 (Controller.px pt - rx bg)) (1480 - rx bg)).
    set (h := Qmin (Qmax 300 (Controller.py pt - ry bg)) (2220 - ry bg)).
    assert (Hw1 : w <= 1480 - rx bg) by apply Q.le_min_r.
    assert (Hh1 : h <= 2220 - ry bg) by apply Q.le_min_r.
    assert (Hw2 : Qmin 400 (1480 - rx bg) <= w)
      by (apply Q.min_le_compat_r; apply Q.le_max_l).
    assert (Hh2 : Qmin 300 (2220 - ry bg) <= h)
      by (apply Q.min_le_compat_r; apply Q.le_max_l).
    split; [reflexivity|]. split; [reflexivity|].
    split; [lra|]. split; [lra|].
    split; [exact Hw2|]. split; [exact Hh2|].
    split; intro H.
    + apply Qle_trans with (Qmin 400 (1480 - rx bg));
        [rewrite Q.min_l by lra; lra | exact Hw2].
    + apply Qle_trans with (Qmin 300 (2220 - ry bg));
        [rewrite Q.min_l by lra; lra | exact Hh2].
Qed.

(** ** Orphaned gestures and the drag round trip *)

Lemma activeGesture_after_move
    (p : Controller.Props) (s : Controller.State) (pt : Controller.Point) :
  Controller.activeGesture p (Controller.handleMouseMove p s pt)
  = Controller.activeGesture p s.
Proof.
  destruct (move_keeps_flags p s pt) as [D [R [BD [BR _]]]].
  unfold Controller.activeGesture. rewrite D, R, BD, BR. reflexivity.
Qed.

Lemma handleMouseUp_idle (s : Controller.State) :
  Controller.gestureState (Controller.handleMouseUp s) = Controller.Idle.
Proof. reflexivity. Qed.

(** A pointer-down that starts a background drag from the idle state. *)
Lemma handleMouseDown_DraggingBackground
    (p : Controller.Props) (s : Controller.State) (pt : Controller.Point) :
  Controller.gestureState s = Controller.Idle ->
  Controller.gestureState (Controller.handleMouseDown p s pt)
  = Controller.DraggingBackground ->
  Controller.present (Controller.backgroundImage p) = true /\
  Controller.handleMouseDown p s pt =
  Controller.setDragStart
    (Controller.mkPoint
       (Controller.px pt - rx (Controller.backgroundPosition s))
       (Controller.py pt - ry (Controller.backgroundPosition s)))
    (Controller.setBackgroundDragging true s).
Proof.
  intros HI. destruct (idle_flags s HI) as [D [R [BD BR]]].
  unfold Controller.handleMouseDown.
  destruct (Controller.present (Controller.floorPlan p)
            && Controller.isInResizeHandle p s _ _).
  { unfold Controller.gestureState; cbn. rewrite D. discriminate. }
  destruct (Controller.present (Controller.backgroundImage p)
            && Controller.isInBackgroundResizeHandle p s _ _).
  { unfold Controller.gestureState; cbn. rewrite D, R, BD. discriminate. }
  destruct (Controller.present (Controller.floorPlan p)
            && Controller.isInFloorPlan p s _ _).
  { unfold Controller.gestureState; cbn. discriminate. }
  destruct (Controller.present (Controller.backgroundImage p)
            && Controller.isInBackground p s _ _) eqn:E.
  - intros _. apply andb_true_iff in E. split; [apply E | reflexivity].
  - rewrite HI. discriminate.
Qed.

(** C7 (amended).  When a gesture is recorded on a layer whose source image
    is gone, the next pointer move leaves that layer's rectangle unchanged
    and keeps the gesture flags as they were: the gesture is suspended
    rather than ended, and it is pointer-up (or the pointer leaving the
    canvas) that returns the state to idle.  With no other gesture active
    the move only updates the hover cursor. *)
Theorem orphaned_gesture_is_suspended
    (p : Controller.Props) (s : Controller.State) (pt : Controller.Point)
    (l : Layer) :
  Controller.gesture_layer (Controller.gestureState s) = Some l ->
  Controller.layer_present p l = false ->
  let s' := Controller.handleMouseMove p s pt in
  Controller.layer_rect s' l = Controller.layer_rect s l /\
  Controller.gestureState s' = Controller.gestureState s /\
  Controller.gestureState (Controller.handleMouseUp s') = Controller.Idle /\
  (Controller.activeGesture p s = Controller.Idle ->
     s' = Controller.setCursor
            (Controller.hover_cursor p s (Controller.px pt) (Controller.py pt)) s).
Proof.
  intros _ A s'.
  split; [apply move_keeps_absent_layer; exact A|].
  split; [apply move_keeps_gestureState|].
  split; [apply handleMouseUp_idle|].
  apply move_Idle.
Qed.

(** C9.  From the idle state, grab the background body at [p0], move the
    pointer by [(dx, dy)] and then by [(-dx, -dy)]: if neither move runs
    into a clamp bound, the first move translates the background rectangle
    by [(dx, dy)] and the second restores it. *)
Theorem background_drag_round_trip
    (p : Controller.Props) (s : Controller.State) (p0 : Controller.Point)
    (dx dy : Q) :
  let bg := Controller.backgroundPosition s in
  let s1 := Controller.handleMouseDown p s p0 in
  let p1 := Controller.mkPoint (Controller.px p0 + dx) (Controller.py p0 + dy) in
  let s2 := Controller.handleMouseMove p s1 p1 in
  let p2 := Controller.mkPoint (Controller.px p1 + - dx) (Controller.py p1 + - dy) in
  let s3 := Controller.handleMouseMove p s2 p2 in
  Controller.gestureState s = Controller.Idle ->
  Controller.gestureState s1 = Controller.DraggingBackground ->
  -200 <= rx bg + dx <= 1280 ->
  0 <= ry bg + dy <= 1920 - rheight bg ->
  -200 <= rx bg <= 1280 ->
  0 <= ry bg <= 1920 - rheight bg ->
  rect_eq (Controller.backgroundPosition s2)
          (mkRect (rx bg + dx) (ry bg + dy) (rwidth bg) (rheight bg)) /\
  rect_eq (Controller.backgroundPosition s3) bg /\
  Controller.floorPlanPosition s3 = Controller.floorPlanPosition s.
Proof.
  intros bg s1 p1 s2 p2 s3 HI HG Hx1 Hy1 Hx0 Hy0.
  destruct (handleMouseDown_DraggingBackground p s p0 HI HG) as [Hbg E1].
  destruct (idle_flags s HI) as [D [R [BD BR]]].
  assert (G1 : Controller.activeGesture p s1 = Controller.DraggingBackground).
  { subst s1. rewrite E1. unfold Controller.activeGesture. cbn.
    rewrite D, R, Hbg. reflexivity. }
  assert (G2 : Controller.activeGesture p s2 = Controller.DraggingBackground).
  { subst s2. rewrite activeGesture_after_move. exact G1. }
  assert (E2 : s2 = Controller.handleMouseMove p s1 p1) by reflexivity.
  assert (E3 : s3 = Controller.handleMouseMove p s2 p2) by reflexivity.
  rewrite (move_DraggingBackground p s1 p1 G1) in E2.
  rewrite (move_DraggingBackground p s2 p2 G2) in E3.
  assert (DS2 : Controller.dragStart s2 = Controller.dragStart s1).
  { rewrite E2. reflexivity. }
  assert (H2 : Controller.backgroundPosition s2 =
               mkRect (Qmax (-200) (Qmin 1280 (Controller.px p0 + dx - (Controller.px p0 - rx bg))))
                      (Qmax 0 (Qmin (1920 - rheight bg) (Controller.py p0 + dy - (Controller.py p0 - ry bg))))
                      (rwidth bg) (rheight bg)).
  { rewrite E2. subst s1. rewrite E1. reflexivity. }
  assert (H3 : Controller.backgroundPosition s3 =
               mkRect (Qmax (-200) (Qmin 1280 (Controller.px p0 + dx + - dx - (Controller.px p0 - rx bg))))
                      (Qmax 0 (Qmin (1920 - rheight bg) (Controller.py p0 + dy + - dy - (Controller.py p0 - ry bg))))
                      (rwidth bg) (rheight bg)).
  { rewrite E3. cbn [Controller.setBackgroundPosition Controller.backgroundPosition].
    rewrite DS2, H2. cbn [rx ry rwidth rheight].
    subst s1. rewrite E1. reflexivity. }
  split; [|split].
  - rewrite H2. unfold rect_eq. cbn [rx ry rwidth rheight].
    split; [rewrite clamp_id; lra|].
    split; [rewrite clamp_id; lra|].
    split; reflexivity.
  - rewrite H3. unfold rect_eq. cbn [rx ry rwidth rheight].
    split; [rewrite clamp_id; lra|].
    split; [rewrite clamp_id; lra|].
    split; reflexivity.
  - rewrite E3, E2. subst s1. rewrite E1. reflexivity.
Qed.

(** ** The statements above on concrete sessions *)

Lemma handleMouseDown_priority_witness :
  Controller.gestureState
    (Controller.handleMouseDown Scenario.both_layers Scenario.mounted
       (Controller.mkPoint 1030 1040))
  = Controller.ResizingFloorPlan.
Proof.
  pose proof (handleMouseDown_priority Scenario.both_layers Scenario.mounted
                (Controller.mkPoint 1030 1040) eq_refl) as H.
  cbv zeta in H.
  destruct H as (_ & _ & _ & _ & _ & H & _).
  apply H.
  - reflexivity.
  - split; reflexivity.
  - split; reflexivity.
Defined.

(** C3, as stated, fails for a background taller than the canvas: grabbed
    and moved, the rectangle is pinned at [y = 0], above which
    [1920 - height] is negative. *)
Lemma drag_bounds_counterexample :
  ry (Controller.backgroundPosition
        (Controller.handleMouseMove Scenario.both_layers
           Scenario.tall_background_grabbed (Controller.mkPoint 500 600))) == 0 /\
  ~ Controller.drag_bounds_claim Scenario.both_layers
      Scenario.tall_background_grabbed (Controller.mkPoint 500 600).
Proof.
  split; [reflexivity|].
  intros [_ H]. specialize (H eq_refl).
  destruct H as [_ [_ H]]. vm_compute in H. apply H. reflexivity.
Qed.

Lemma drag_respects_bounds_witness :
  Controller.floor_plan_in_bounds
    (Controller.floorPlanPosition
       (Controller.handleMouseMove Scenario.both_layers Scenario.plan_grabbed
          (Controller.mkPoint 600 800))) /\
  Controller.background_in_bounds
    (Controller.backgroundPosition
       (Controller.handleMouseMove Scenario.both_layers
          (Controller.handleMouseDown Scenario.both_layers Scenario.mounted
             (Controller.mkPoint 500 500))
          (Controller.mkPoint 600 450))).
Proof.
  split.
  - pose proof (drag_respects_bounds Scenario.both_layers Scenario.plan_grabbed
                  (Controller.mkPoint 600 800)) as H.
    cbv zeta in H. destruct H as [H _].
    destruct (H eq_refl) as (_ & _ & _ & _ & _ & B).
    apply B; vm_compute; discriminate.
  - pose proof (drag_respects_bounds Scenario.both_layers
                  (Controller.handleMouseDown Scenario.both_layers
                     Scenario.mounted (Controller.mkPoint 500 500))
                  (Controller.mkPoint 600 450)) as H.
    cbv zeta in H. destruct H as [_ H].
    destruct (H eq_refl) as (_ & _ & _ & _ & _ & B).
    apply B; vm_compute; discriminate.
Defined.

(** C4, as stated, fails on a session that stays on the canvas: a floor plan
    100 wide, dragged to [x = 980] and resized again, comes out 90 wide. *)
Lemma resize_bounds_counterexample :
  rect_eq (Controller.floorPlanPosition Scenario.narrow_plan_at_edge)
          (mkRect 980 650 100 390) /\
  rwidth (Controller.floorPlanPosition
            (Controller.handleMouseMove Scenario.both_layers
               Scenario.narrow_plan_at_edge (Controller.mkPoint 1075 1035))) == 90 /\
  ~ Controller.resize_bounds_claim Scenario.both_layers
      Scenario.narrow_plan_at_edge (Controller.mkPoint 1075 1035).
Proof.
  split; [vm_compute; repeat split; reflexivity|].
  split; [reflexivity|].
  intros [H _]. specialize (H eq_refl).
  destruct H as [H _]. vm_compute in H. apply H. reflexivity.
Qed.

Lemma resize_respects_limits_witness :
  Controller.resized_within 100 75
    (Controller.floorPlanPosition Scenario.mounted)
    (Controller.floorPlanPosition
       (Controller.handleMouseMove Scenario.both_layers
          (Controller.handleMouseDown Scenario.both_layers Scenario.mounted
             (Controller.mkPoint 1030 1040))
          (Controller.mkPoint 900 900))) /\
  400 <= rwidth
    (Controller.backgroundPosition
       (Controller.handleMouseMove Scenario.both_layers
          (Controller.handleMouseDown Scenario.both_layers Scenario.mounted
             (Controller.mkPoint 1070 1490))
          (Controller.mkPoint 300 1000))).
Proof.
  split.
  - pose proof (resize_respects_limits Scenario.both_layers
                  (Controller.handleMouseDown Scenario.both_layers
                     Scenario.mounted (Controller.mkPoint 1030 1040))
                  (Controller.mkPoint 900 900)) as H.
    cbv zeta in H. destruct H as [H _].
    destruct (H eq_refl) as (_ & _ & _ & _ & _ & _ & _ & _ & B).
    apply B; vm_compute; discriminate.
  - pose proof (resize_respects_limits Scenario.both_layers
                  (Controller.handleMouseDown Scenario.both_layers
                     Scenario.mounted (Controller.mkPoint 1070 1490))
                  (Controller.mkPoint 300 1000)) as H.
    cbv zeta in H. destruct H as [_ H].
    destruct (H eq_refl) as (_ & _ & _ & _ & _ & _ & B & _).
    apply B; vm_compute; discriminate.
Defined.

(** C7, as stated, fails: with the floor plan grabbed and its image then
    removed, the next pointer move leaves [isDragging] set. *)
Lemma orphaned_gesture_counterexample :
  Controller.gestureState
    (Controller.handleMouseMove Scenario.background_only Scenario.plan_grabbed
       (Controller.mkPoint 600 800)) = Controller.DraggingFloorPlan /\
  ~ Controller.orphan_claim Scenario.background_only Scenario.plan_grabbed
      (Controller.mkPoint 600 800).
Proof.
  split; [reflexivity|].
  intro H. destruct (H FloorPlanLayer eq_refl eq_refl) as [H' _].
  discriminate H'.
Qed.

Lemma orphaned_gesture_is_suspended_witness :
  Controller.floorPlanPosition
    (Controller.handleMouseMove Scenario.background_only Scenario.plan_grabbed
       (Controller.mkPoint 600 800))
  = Controller.floorPlanPosition Scenario.plan_grabbed.
Proof.
  exact (proj1 (orphaned_gesture_is_suspended Scenario.background_only
                  Scenario.plan_grabbed (Controller.mkPoint 600 800)
                  FloorPlanLayer eq_refl eq_refl)).
Defined.

Lemma background_drag_round_trip_witness :
  rect_eq
    (Controller.backgroundPosition
       (Controller.handleMouseMove Scenario.both_layers
          (Controller.handleMouseMove Scenario.both_layers
             (Controller.handleMouseDown Scenario.both_layers Scenario.mounted
                (Controller.mkPoint 500 500))
             (Controller.mkPoint (500 + 100) (500 + -50)))
          (Controller.mkPoint (500 + 100 + - 100) (500 + -50 + - -50))))
    (Controller.backgroundPosition Scenario.mounted).
Proof.
  pose proof (background_drag_round_trip Scenario.both_layers Scenario.mounted
                (Controller.mkPoint 500 500) 100 (-50)) as H.
  cbv zeta in H.
  apply H.
  - reflexivity.
  - reflexivity.
  - split; vm_compute; discriminate.
  - split; vm_compute; discriminate.
  - split; vm_compute; discriminate.
  - split; vm_compute; discriminate.
Defined.

(** ** The compositor *)

Section Rendering.

Variable propertyData : PropertyFormData.

(** In the current revision the only scrim painted after the background
    bitmap covers exactly the rectangle the bitmap was drawn into, whether
    that rectangle was supplied or computed, with or without editing
    handles. *)
Lemma drawStoryCanvas_scrim_confined
    (file : File) (floorPlan : option File)
    (floorPlanPosition : option FloorPlanPosition)
    (backgroundPosition : option BackgroundPosition)
    (backgroundColor : option string) (showEditingHandles : bool)
    (img : Image) (calls : list Call) :
  loadImage file = Some img ->
  Compositor.drawStoryCanvas propertyData (Some file) floorPlan
    floorPlanPosition backgroundPosition backgroundColor showEditingHandles
  = Some calls ->
  exists r,
    Compositor.background_rect img backgroundPosition = Some r /\
    overlays_after BackgroundLayer (paint calls) = Some (r, [r]) /\
    bitmaps BackgroundLayer (paint calls) = [r].
Proof.
  intros Himg. unfold Compositor.drawStoryCanvas, Compositor.draw_background.
  rewrite Himg.
  destruct (Compositor.background_rect img backgroundPosition) as [r|];
    [|discriminate].
  cbn [bind].
  unfold Compositor.draw_floor_plan, Compositor.clear_canvas.
  destruct r as [bgX bgY bgWidth bgHeight]. cbn [rx ry rwidth rheight].
  intro H. exists (mkRect bgX bgY bgWidth bgHeight).
  split; [reflexivity|].
  destruct floorPlan as [planFile|];
    [destruct (loadImage planFile) as [planImg|];
     [destruct (calculateImageFit planImg _ _) as [fit|]; [|discriminate H]|]|];
    cbn [bind] in H; injection H as <-;
    destruct (truthy_string backgroundColor) as [css|];
    destruct showEditingHandles; split; reflexivity.
Qed.

(** A supplied background rectangle is used as it is. *)
Lemma background_rect_explicit (img : Image) (pos : BackgroundPosition) :
  Compositor.background_rect img (Some pos) = Some pos.
Proof. destruct pos. reflexivity. Qed.

(** Without a supplied rectangle, the background is fitted into the canvas
    width by 70% of the canvas height and moved down by 150. *)
Lemma background_rect_default (img : Image) :
  Compositor.background_rect img None =
  option_map (fun fit => mkRect (rx fit) (ry fit + 150) (rwidth fit) (rheight fit))
             (calculateImageFit img 1080 (1920 * 0.7)).
Proof.
  unfold Compositor.background_rect, CANVAS_WIDTH, CANVAS_HEIGHT.
  destruct (calculateImageFit img 1080 (1920 * 0.7)); reflexivity.
Qed.

(** A supplied floor-plan rectangle is used as it is when none of its four
    fields is zero. *)
Lemma floor_plan_rect_explicit_nonzero (pos : FloorPlanPosition) :
  ~ rx pos == 0 -> ~ ry pos == 0 -> ~ rwidth pos == 0 -> ~ rheight pos == 0 ->
  Compositor.floor_plan_rect (Some pos) = pos.
Proof.
  intros Hx Hy Hw Hh. destruct pos as [x y w h]. cbn [rx ry rwidth rheight] in *.
  unfold Compositor.floor_plan_rect, js_or. cbn [option_map rx ry rwidth rheight].
  assert (F : forall v, ~ v == 0 -> Qeq_bool v 0 = false).
  { intros v Hv. destruct (Qeq_bool v 0) eqn:E; [|reflexivity].
    apply Qeq_bool_eq in E. contradiction. }
  rewrite (F x Hx), (F y Hy), (F w Hw), (F h Hh). reflexivity.
Qed.

Lemma floor_plan_rect_default :
  rect_eq (Compositor.floor_plan_rect None) (mkRect (1080 - 480 - 60) 700 480 320).
Proof. apply rect_eq_refl. Qed.

(** The dashed border of the floor plan is drawn around
    [Compositor.floor_plan_rect]. *)
Lemma floor_plan_border
    (planImg : Image) (floorPlanPosition : option FloorPlanPosition)
    (backgroundColor : option string) (calls : list Call) :
  Compositor.drawStoryCanvas propertyData None (Some (Decodable planImg))
    floorPlanPosition None backgroundColor true = Some calls ->
  dashed_borders calls = [Compositor.floor_plan_rect floorPlanPosition].
Proof.
  unfold Compositor.drawStoryCanvas, Compositor.draw_background,
    Compositor.draw_floor_plan, Compositor.clear_canvas.
  cbn [bind loadImage].
  destruct (Compositor.floor_plan_rect floorPlanPosition) as [x y w h].
  cbn [rx ry rwidth rheight].
  destruct (calculateImageFit planImg _ _) as [fit|]; [|discriminate].
  cbn [bind]. intro H. injection H as <-.
  destruct (truthy_string backgroundColor); reflexivity.
Qed.

(** C1.  The revision of [drawStoryCanvas] in
    [client/src/lib/canvas-utils.ts] does not confine the scrim: rendering
    a background image into the rectangle [{0, 150, 1080, 1350}] paints the
    30% black overlay over the whole 1080x1920 canvas. *)
Theorem legacy_scrim_covers_canvas :
  exists calls,
    Legacy.drawStoryCanvas propertyData (Some Scenario.photo) None None
      (Some (mkRect 0 150 1080 1350)) = Some calls /\
    overlays_after BackgroundLayer (paint calls)
    = Some (mkRect 0 150 1080 1350, [mkRect 0 0 1080 1920]) /\
    ~ rect_eq (mkRect 0 0 1080 1920) (mkRect 0 150 1080 1350).
Proof.
  eexists. split; [reflexivity|]. split; [reflexivity|].
  intros (_ & H & _). discriminate H.
Qed.

(** C5.  A floor-plan rectangle with [x = 0] is not used as given: the
    compositor replaces the zero by the default [1080 - width - 60], and
    draws the border there.  The controller produces such a rectangle when
    the floor plan is dragged against the left canvas edge. *)
Theorem floor_plan_zero_x_replaced :
  rect_eq (Compositor.floor_plan_rect (Some (mkRect 0 700 480 320)))
          (mkRect 540 700 480 320) /\
  (exists calls,
     Compositor.drawStoryCanvas propertyData None (Some Scenario.plan)
       (Some (mkRect 0 700 480 320)) None None true = Some calls /\
     dashed_borders calls = [mkRect (1080 - 480 - 60) 700 480 320]) /\
  (let dragged :=
     Controller.handleMouseMove Scenario.both_layers Scenario.plan_grabbed
       (Controller.mkPoint 0 750) in
   rect_eq (Controller.floorPlanPosition dragged) (mkRect 0 700 600 400) /\
   rect_eq (Compositor.floor_plan_rect (Some (Controller.floorPlanPosition dragged)))
           (mkRect 420 700 600 400)).
Proof.
  split; [vm_compute; repeat split; reflexivity|].
  split.
  - destruct (Compositor.drawStoryCanvas propertyData None (Some Scenario.plan)
                (Some (mkRect 0 700 480 320)) None None true) as [calls|] eqn:E.
    + exists calls. split; [reflexivity|].
      apply floor_plan_border in E. rewrite E. reflexivity.
    + discriminate E.
  - cbv zeta. split; vm_compute; repeat split; reflexivity.
Qed.

End Rendering.

(** ** The debounced notification *)

Section Debouncing.

Import Controller Debounce.

Lemma runEffect_arms (w : World) :
  single_timer w ->
  timers (runEffect w) =
    [ mkTimer (next_id w) (now w + 100)
        (floorPlanPosition (state w)) (backgroundPosition (state w)) ] /\
  cleanup (runEffect w) = Some (next_id w) /\
  emitted (runEffect w) = emitted w /\
  now (runEffect w) = now w /\
  props (runEffect w) = props w /\
  state (runEffect w) = state w.
Proof.
  intros [E | [t [E C]]]; unfold runEffect.
  - destruct (cleanup w); unfold setTimeout, clearTimeout; cbn; rewrite E;
      cbn; repeat split; reflexivity.
  - rewrite C. unfold setTimeout, clearTimeout. cbn. rewrite E. cbn.
    rewrite Nat.eqb_refl. cbn. repeat split; reflexivity.
Qed.

Lemma single_timer_runEffect (w : World) :
  single_timer w -> single_timer (runEffect w).
Proof.
  intro H. destruct (runEffect_arms w H) as [T [C _]].
  right. eexists. split; [exact T | exact C].
Qed.

Lemma single_timer_with_state (s : State) (w : World) :
  single_timer w -> single_timer (with_state s w).
Proof. intro H. exact H. Qed.

Lemma single_timer_elapse (dt : Z) (w : World) :
  single_timer w -> single_timer (elapse dt w).
Proof.
  intros [E | [t [E C]]]; unfold single_timer, elapse; cbn; rewrite E; cbn.
  - left. reflexivity.
  - destruct (due (now w + dt) t); cbn; [left; reflexivity|].
    right. exists t. split; [reflexivity | exact C].
Qed.

Lemma single_timer_step (w : World) (e : Event) :
  single_timer w -> single_timer (step w e).
Proof.
  intro H. destruct e; cbn [step].
  - apply single_timer_with_state, H.
  - destruct (moveMutates (props w) (state w)).
    + apply single_timer_runEffect, single_timer_with_state, H.
    + apply single_timer_with_state, H.
  - apply single_timer_with_state, H.
  - apply single_timer_elapse, H.
Qed.

Lemma single_timer_run (trace : list Event) (w : World) :
  single_timer w -> single_timer (run w trace).
Proof.
  revert w. induction trace as [|e trace IH]; intros w H; [exact H|].
  cbn. apply IH, single_timer_step, H.
Qed.

Lemma single_timer_mount (p : Props) ifp ibg : single_timer (mount p ifp ibg).
Proof.
  unfold mount. apply single_timer_runEffect. left. reflexivity.
Qed.

Lemma props_step (w : World) (e : Event) : props (step w e) = props w.
Proof.
  destruct e; cbn [step]; try reflexivity.
  destruct (moveMutates (props w) (state w)); [|reflexivity].
  unfold runEffect. cbn. destruct (cleanup w); reflexivity.
Qed.

Lemma props_run (trace : list Event) (w : World) :
  props (run w trace) = props w.
Proof.
  unfold run. revert w.
  induction trace as [|e trace IH]; intros w; [reflexivity|].
  cbn [fold_left]. rewrite IH. apply props_step.
Qed.

Lemma moveMutates_after_move (p : Props) (s : State) (pt : Point) :
  moveMutates p (handleMouseMove p s pt) = moveMutates p s.
Proof.
  destruct (move_keeps_flags p s pt) as [D [R [BD [BR _]]]].
  unfold moveMutates. rewrite D, R, BD, BR. reflexivity.
Qed.

(** A mutating pointer move cancels whatever timeout is pending and arms a
    fresh one, 100 ms ahead, for the rectangles it produced. *)
Lemma move_restarts_timer (w0 w : World) (pt : Point) :
  single_timer w ->
  props w = props w0 -> emitted w = emitted w0 ->
  moveMutates (props w) (state w) = true ->
  armed w0 (step w (PointerMove pt)) /\
  now (step w (PointerMove pt)) = now w /\
  state (step w (PointerMove pt)) = handleMouseMove (props w) (state w) pt.
Proof.
  intros S P E M. cbn [step]. rewrite M.
  set (w' := with_state (handleMouseMove (props w) (state w) pt) w).
  assert (S' : single_timer w') by (apply single_timer_with_state, S).
  destruct (runEffect_arms w' S') as [T [C [Em [N [Pr St]]]]].
  split; [|split].
  - unfold armed. rewrite Pr, Em, St, N. cbn [w' with_state props emitted state now].
    split; [exact P|]. split; [exact E|].
    split; [rewrite moveMutates_after_move; exact M|].
    exists (next_id w'). split; [|exact C].
    rewrite T. reflexivity.
  - rewrite N. reflexivity.
  - rewrite St. reflexivity.
Qed.

Lemma armed_single_timer (w0 w : World) : armed w0 w -> single_timer w.
Proof.
  intros (_ & _ & _ & id & T & C). right. eexists. split; [exact T|exact C].
Qed.

(** Less than 100 ms later the timeout is still pending. *)
Lemma armed_elapse (w0 w : World) (dt : Z) :
  armed w0 w -> (dt < 100)%Z ->
  single_timer (elapse dt w) /\
  props (elapse dt w) = props w0 /\
  emitted (elapse dt w) = emitted w0 /\
  moveMutates (props (elapse dt w)) (state (elapse dt w)) = true.
Proof.
  intros (P & E & M & id & T & C) Hdt.
  assert (D : due (now w + dt)
                (mkTimer id (now w + 100) (floorPlanPosition (state w))
                   (backgroundPosition (state w))) = false).
  { unfold due. cbn. apply Z.leb_gt. lia. }
  split; [apply single_timer_elapse; right; eexists; split; [exact T|exact C]|].
  unfold elapse. cbn. rewrite T. cbn. rewrite D. cbn.
  split; [exact P|]. split; [rewrite app_nil_r; exact E | exact M].
Qed.

Lemma armed_burst_rest (w0 : World) (rest : list (Z * Point)) (w : World) :
  armed w0 w ->
  Forall (fun dp => (0 <= fst dp < 100)%Z) rest ->
  armed w0
    (run w (flat_map (fun dp => [Elapse (fst dp); PointerMove (snd dp)]) rest)).
Proof.
  revert w. induction rest as [|[d q] rest IH]; intros w A F; [exact A|].
  inversion F as [|? ? Hd F']; subst. cbn [fst snd] in Hd.
  cbn [flat_map fst snd app run fold_left].
  apply IH; [|exact F'].
  change (step w (Elapse d)) with (elapse d w).
  destruct (armed_elapse w0 w d A) as [S [P [E M]]]; [lia|].
  apply (move_restarts_timer w0 (elapse d w) q S P E M).
Qed.

(** Once 100 ms have passed without a mutation the pending timeout fires. *)
Lemma armed_fires (w0 w : World) (T : Z) :
  armed w0 w -> onPositionChange (props w0) = true -> (100 <= T)%Z ->
  emitted (elapse T w) =
    emitted w0 ++
    [ mkNotification (now w + 100)
        (floorPlanPosition (state w)) (backgroundPosition (state w)) ] /\
  timers (elapse T w) = [].
Proof.
  intros (P & E & M & id & Tm & C) CB HT.
  assert (D : due (now w + T)
                (mkTimer id (now w + 100) (floorPlanPosition (state w))
                   (backgroundPosition (state w))) = true).
  { unfold due. cbn. apply Z.leb_le. lia. }
  unfold elapse. cbn. rewrite Tm. cbn. rewrite D. cbn.
  unfold fire. rewrite P, CB, E. cbn. split; reflexivity.
Qed.

(** Without the callback prop no timeout ever notifies anybody. *)
Lemma emitted_step_no_callback (w : World) (e : Event) :
  onPositionChange (props w) = false ->
  emitted w = [] -> emitted (step w e) = [].
Proof.
  intros CB E. destruct e; cbn [step]; try exact E.
  - destruct (moveMutates (props w) (state w)); [|exact E].
    unfold runEffect. cbn. destruct (cleanup w); exact E.
  - unfold elapse. cbn. rewrite E. cbn.
    induction (filter (due (now w + dt)) (timers w)) as [|t l IH];
      [reflexivity|].
    cbn. unfold fire at 1. rewrite CB. exact IH.
Qed.

Lemma no_callback_no_notification (p : Props) ifp ibg (trace : list Event) :
  onPositionChange p = false ->
  emitted (run (mount p ifp ibg) trace) = [].
Proof.
  intro CB.
  assert (G : forall w, props w = p -> emitted w = [] ->
                        emitted (run w trace) = []).
  { unfold run. induction trace as [|e trace IH]; intros w P E; [exact E|].
    cbn [fold_left]. apply IH.
    - rewrite props_step. exact P.
    - apply emitted_step_no_callback; [rewrite P; exact CB | exact E]. }
  apply G; reflexivity.
Qed.

End Debouncing.

(** C8.  With the callback supplied and a gesture active, a burst of
    pointer moves in which every move follows the previous one within
    100 ms emits nothing while it lasts and keeps exactly one timeout
    pending, armed by the latest move for the rectangles it produced; once
    100 ms pass without a further move, exactly one notification is emitted,
    carrying the rectangles left by the last move.  At every point of any
    session at most one timeout is pending, and a mutating move replaces it
    by a fresh one due 100 ms later. *)
Theorem debounce_single_notification
    (p : Controller.Props)
    (initialFloorPlanPosition : option FloorPlanPosition)
    (initialBackgroundPosition : option BackgroundPosition)
    (history : list Debounce.Event)
    (first : Controller.Point) (rest : list (Z * Controller.Point)) (T : Z) :
  let w := Debounce.run
             (Debounce.mount p initialFloorPlanPosition initialBackgroundPosition)
             history in
  let w1 := Debounce.run w (Debounce.burst first rest) in
  let w2 := Debounce.step w1 (Debounce.Elapse T) in
  let final_floorPlan := Controller.floorPlanPosition (Debounce.state w1) in
  let final_background := Controller.backgroundPosition (Debounce.state w1) in
  Controller.onPositionChange p = true ->
  Controller.moveMutates p (Debounce.state w) = true ->
  Forall (fun dp => (0 <= fst dp < 100)%Z) rest ->
  (100 <= T)%Z ->
  Debounce.emitted w1 = Debounce.emitted w /\
  (exists id,
     Debounce.timers w1 =
       [ Debounce.mkTimer id (Debounce.now w1 + 100)
           final_floorPlan final_background ]) /\
  Debounce.emitted w2 =
    Debounce.emitted w ++
    [ Debounce.mkNotification (Debounce.now w1 + 100)
        final_floorPlan final_background ] /\
  Debounce.timers w2 = [] /\
  (forall k, Debounce.single_timer
               (Debounce.run w (firstn k (Debounce.burst first rest)))) /\
  (forall pt,
     Debounce.timers (Debounce.step w1 (Debounce.PointerMove pt)) =
       [ Debounce.mkTimer (Debounce.next_id w1) (Debounce.now w1 + 100)
           (Controller.floorPlanPosition
              (Controller.handleMouseMove p (Debounce.state w1) pt))
           (Controller.backgroundPosition
              (Controller.handleMouseMove p (Debounce.state w1) pt)) ]).
Proof.
  intros w w1 w2 ffp fbg CB M F HT.
  assert (Pw : Debounce.props w = p).
  { subst w. rewrite props_run. unfold Debounce.mount, Debounce.runEffect.
    reflexivity. }
  assert (Sw : Debounce.single_timer w)
    by (apply single_timer_run, single_timer_mount).
  assert (A1 : Debounce.armed w w1).
  { subst w1. unfold Debounce.burst. cbn [Debounce.run fold_left].
    apply armed_burst_rest; [|exact F].
    apply move_restarts_timer; try reflexivity; [exact Sw|].
    rewrite Pw. exact M. }
  pose proof A1 as (P1 & E1 & M1 & id & T1 & C1).
  split; [exact E1|].
  split; [exists id; exact T1|].
  destruct (armed_fires w w1 T A1) as [EF TF]; [rewrite Pw; exact CB|exact HT|].
  split; [exact EF|]. split; [exact TF|].
  split.
  - intro k. apply single_timer_run. exact Sw.
  - intro pt.
    cbn [Debounce.step]. rewrite M1.
    destruct (runEffect_arms
                (Debounce.with_state
                   (Controller.handleMouseMove (Debounce.props w1)
                      (Debounce.state w1) pt) w1)) as [Tm _].
    { apply single_timer_with_state, (armed_single_timer w w1 A1). }
    rewrite Tm. cbn [Debounce.with_state Debounce.next_id Debounce.now
                     Debounce.state]. rewrite P1, Pw. reflexivity.
Qed.

Lemma debounce_single_notification_witness :
  let w :=
    Debounce.run (Debounce.mount Scenario.both_layers None None)
      [ Debounce.PointerDown (Controller.mkPoint 500 700) ] in
  let w1 :=
    Debounce.run w
      (Debounce.burst (Controller.mkPoint 510 700)
         [ (20%Z, Controller.mkPoint 520 700);
           (20%Z, Controller.mkPoint 530 700);
           (20%Z, Controller.mkPoint 540 700);
           (20%Z, Controller.mkPoint 550 700) ]) in
  Debounce.emitted (Debounce.step w1 (Debounce.Elapse 100)) =
  [ Debounce.mkNotification 180
      (Controller.floorPlanPosition (Debounce.state w1))
      (Controller.backgroundPosition (Debounce.state w1)) ].
Proof.
  intros w w1.
  pose proof (debounce_single_notification Scenario.both_layers None None
                [ Debounce.PointerDown (Controller.mkPoint 500 700) ]
                (Controller.mkPoint 510 700)
                [ (20%Z, Controller.mkPoint 520 700);
                  (20%Z, Controller.mkPoint 530 700);
                  (20%Z, Controller.mkPoint 540 700);
                  (20%Z, Controller.mkPoint 550 700) ] 100%Z) as H.
  cbv zeta in H.
  destruct H as (_ & _ & E & _).
  - reflexivity.
  - reflexivity.
  - repeat constructor; cbn; lia.
  - lia.
  - exact E.
Defined.

(** ** The monthly payment *)

Section MonthlyPayment.

Import Payment.




Variables totalCost initialPayment rate : Q.
Variable years : Z.

Let loanAmount := totalCost - initialPayment.
Let monthlyRate := rate / 100 / 12.
Let totalPayments := (years * 12)%Z.



End MonthlyPayment.



(** A loan of 1000 over one year at 12% a year costs 88.85 a month. *)
Example calculateMonthlyPayment_one_year :
  exists pmt,
    Payment.calculateMonthlyPayment 1200 200 12 1 = Some pmt /\ pmt == 88.85.
Proof. eexists. split; [vm_compute; reflexivity | reflexivity]. Qed.

(** * Further properties of the code *)

(** ** More on aspect fit *)

(** The fitted rectangle has the aspect ratio of the image and spans the
    container on at least one axis. *)
Theorem calculateImageFit_keeps_aspect (iw ih cw ch : Q) :
  0 < iw -> 0 < ih -> 0 < cw -> 0 < ch ->
  exists r,
    calculateImageFit (mkImage iw ih) cw ch = Some r /\
    rwidth r * ih == rheight r * iw /\
    0 < rwidth r /\ 0 < rheight r /\
    (rwidth r == cw \/ rheight r == ch).
Proof.
  intros Hiw Hih Hcw Hch.
  exists (aspect_fit_spec iw ih cw ch).
  split; [apply calculateImageFit_refines; assumption|].
  assert (Hia : 0 < iw / ih) by (apply Qdiv_pos; assumption).
  unfold aspect_fit_spec.
  destruct (Qlt_le_dec (cw / ch) (iw / ih)) as [L|L]; cbn [rwidth rheight].
  - split; [field; lra|].
    split; [assumption|]. split; [apply Qdiv_pos; assumption|].
    left. reflexivity.
  - split; [field; lra|].
    split; [apply Qmult_lt_0_compat; assumption|]. split; [assumption|].
    right. reflexivity.
Qed.

Lemma calculateImageFit_keeps_aspect_witness :
  exists r,
    calculateImageFit (mkImage 800 600) 1600 900 = Some r /\
    rwidth r * 600 == rheight r * 800.
Proof.
  destruct (calculateImageFit_keeps_aspect 800 600 1600 900)
    as [r [E [A _]]]; try reflexivity.
  exists r. split; [exact E | exact A].
Defined.

Lemma aspect_fit_spec_scaled (k iw ih cw ch : Q) :
  0 < k -> 0 < iw -> 0 < ih ->
  rect_eq (aspect_fit_spec (k * iw) (k * ih) cw ch) (aspect_fit_spec iw ih cw ch).
Proof.
  intros Hk Hiw Hih.
  assert (E : k * iw / (k * ih) == iw / ih) by (field; lra).
  unfold aspect_fit_spec.
  destruct (Qlt_le_dec (cw / ch) (k * iw / (k * ih))) as [L|L];
    destruct (Qlt_le_dec (cw / ch) (iw / ih)) as [L'|L'].
  - unfold rect_eq; cbn [rx ry rwidth rheight]. rewrite E.
    repeat split; reflexivity.
  - exfalso. rewrite E in L. apply (Qlt_not_le _ _ L L').
  - exfalso. rewrite E in L. apply (Qlt_not_le _ _ L' L).
  - unfold rect_eq; cbn [rx ry rwidth rheight]. rewrite E.
    repeat split; reflexivity.
Qed.

(** The fit depends on the image only through its aspect ratio: an image
    [k] times as large in both directions is fitted into the same
    rectangle. *)
Theorem calculateImageFit_scale_invariant (k iw ih cw ch : Q) :
  0 < k -> 0 < iw -> 0 < ih -> 0 < cw -> 0 < ch ->
  exists r1 r2,
    calculateImageFit (mkImage (k * iw) (k * ih)) cw ch = Some r1 /\
    calculateImageFit (mkImage iw ih) cw ch = Some r2 /\
    rect_eq r1 r2.
Proof.
  intros Hk Hiw Hih Hcw Hch.
  exists (aspect_fit_spec (k * iw) (k * ih) cw ch), (aspect_fit_spec iw ih cw ch).
  split.
  - apply calculateImageFit_refines; try assumption;
      apply Qmult_lt_0_compat; assumption.
  - split; [apply calculateImageFit_refines; assumption|].
    apply aspect_fit_spec_scaled; assumption.
Qed.

Lemma calculateImageFit_scale_invariant_witness :
  exists r1 r2,
    calculateImageFit (mkImage (2 * 800) (2 * 600)) 1600 900 = Some r1 /\
    calculateImageFit (mkImage 800 600) 1600 900 = Some r2 /\
    rect_eq r1 r2.
Proof.
  apply (calculateImageFit_scale_invariant 2 800 600 1600 900); reflexivity.
Defined.

(** ** Display coordinates to canvas coordinates *)

(** A pointer inside the displayed canvas is mapped into the 1080x1920
    canvas, whatever the display size; the top-left corner goes to (0, 0)
    and the bottom-right corner to (1080, 1920). *)
Theorem getMousePos_on_canvas (rect : Controller.DOMRect) (clientX clientY : Q) :
  0 < Controller.dom_width rect -> 0 < Controller.dom_height rect ->
  Controller.dom_left rect <= clientX <=
    Controller.dom_left rect + Controller.dom_width rect ->
  Controller.dom_top rect <= clientY <=
    Controller.dom_top rect + Controller.dom_height rect ->
  exists pt,
    Controller.getMousePos (Some rect) clientX clientY = Some pt /\
    0 <= Controller.px pt <= 1080 /\ 0 <= Controller.py pt <= 1920 /\
    (clientX == Controller.dom_left rect -> Controller.px pt == 0) /\
    (clientY == Controller.dom_top rect -> Controller.py pt == 0) /\
    (clientX == Controller.dom_left rect + Controller.dom_width rect ->
       Controller.px pt == 1080) /\
    (clientY == Controller.dom_top rect + Controller.dom_height rect ->
       Controller.py pt == 1920).
Proof.
  destruct rect as [l t w h]. cbn [Controller.dom_left Controller.dom_top
    Controller.dom_width Controller.dom_height].
  intros Hw Hh Hx Hy.
  unfold Controller.getMousePos.
  cbn [Controller.dom_left Controller.dom_top Controller.dom_width
       Controller.dom_height].
  rewrite (js_div_some 1080 w) by lra. rewrite (js_div_some 1920 h) by lra.
  cbn [bind]. eexists. split; [reflexivity|].
  cbn [Controller.px Controller.py].
  assert (Ex : (clientX - l) * (1080 / w) == (clientX - l) / w * 1080)
    by (field; lra).
  assert (Ey : (clientY - t) * (1920 / h) == (clientY - t) / h * 1920)
    by (field; lra).
  assert (Bx : 0 <= (clientX - l) / w <= 1).
  { split; [apply Qle_shift_div_l | apply Qle_shift_div_r]; lra. }
  assert (By : 0 <= (clientY - t) / h <= 1).
  { split; [apply Qle_shift_div_l | apply Qle_shift_div_r]; lra. }
  rewrite Ex, Ey.
  split; [lra|]. split; [lra|].
  split; [|split; [|split]]; intro E.
  - assert (Z : (clientX - l) / w == 0) by (rewrite E; field; lra). lra.
  - assert (Z : (clientY - t) / h == 0) by (rewrite E; field; lra). lra.
  - assert (Z : (clientX - l) / w == 1) by (rewrite E; field; lra). lra.
  - assert (Z : (clientY - t) / h == 1) by (rewrite E; field; lra). lra.
Qed.

Lemma getMousePos_on_canvas_witness :
  exists pt,
    Controller.getMousePos (Some (Controller.mkDOMRect 10 20 360 640)) 190 340
    = Some pt /\
    0 <= Controller.px pt <= 1080 /\ 0 <= Controller.py pt <= 1920.
Proof.
  destruct (getMousePos_on_canvas (Controller.mkDOMRect 10 20 360 640) 190 340)
    as [pt [E [X [Y _]]]];
    try reflexivity; try (split; vm_compute; discriminate).
  exists pt. split; [exact E|]. split; [exact X | exact Y].
Defined.

(** ** More on the pointer handlers *)

Section Handlers.

Import Controller.

Variable p : Props.
Variable s : State.
Variable pt : Point.

Lemma hover_cursor_first_match :
  hover_cursor p s (px pt) (py pt)
  = Page.cursor_for (first_match (hit_tests p s) (px pt) (py pt)).
Proof.
  unfold hover_cursor, hit_tests, first_match.
  rewrite (guard_floorPlan p (isInResizeHandle p s (px pt) (py pt)))
    by (intro H; apply isInResizeHandle_iff in H; tauto).
  rewrite (guard_background p (isInBackgroundResizeHandle p s (px pt) (py pt)))
    by (intro H; apply isInBackgroundResizeHandle_iff in H; tauto).
  rewrite (guard_floorPlan p (isInFloorPlan p s (px pt) (py pt)))
    by (intro H; apply isInFloorPlan_iff in H; tauto).
  rewrite (guard_background p (isInBackground p s (px pt) (py pt)))
    by (intro H; apply isInBackground_iff in H; tauto).
  destruct (isInResizeHandle p s (px pt) (py pt)); [reflexivity|].
  destruct (isInBackgroundResizeHandle p s (px pt) (py pt)); [reflexivity|].
  destruct (isInFloorPlan p s (px pt) (py pt)); [reflexivity|].
  destruct (isInBackground p s (px pt) (py pt)); reflexivity.
Qed.

Lemma handleMouseDown_keeps_rects :
  floorPlanPosition (handleMouseDown p s pt) = floorPlanPosition s /\
  backgroundPosition (handleMouseDown p s pt) = backgroundPosition s.
Proof.
  unfold handleMouseDown.
  destruct (present (floorPlan p) && isInResizeHandle p s (px pt) (py pt));
    [split; reflexivity|].
  destruct (present (backgroundImage p)
            && isInBackgroundResizeHandle p s (px pt) (py pt));
    [split; reflexivity|].
  destruct (present (floorPlan p) && isInFloorPlan p s (px pt) (py pt));
    [split; reflexivity|].
  destruct (present (backgroundImage p) && isInBackground p s (px pt) (py pt));
    split; reflexivity.
Qed.

Lemma activeGesture_cases :
  activeGesture p s = Idle \/ activeGesture p s = DraggingFloorPlan \/
  activeGesture p s = ResizingFloorPlan \/
  activeGesture p s = DraggingBackground \/
  activeGesture p s = ResizingBackground.
Proof. destruct (activeGesture p s); tauto. Qed.

End Handlers.

(** While no gesture is active, a pointer move changes nothing but the
    cursor, and the cursor it sets announces the gesture a press at that
    point would start: the resize cursor exactly where a resize would
    start, the move cursor exactly where a drag would, the default cursor
    exactly where a press does nothing. *)
Theorem hover_cursor_announces_gesture
    (p : Controller.Props) (s : Controller.State) (pt : Controller.Point) :
  Controller.gestureState s = Controller.Idle ->
  let hovered := Controller.handleMouseMove p s pt in
  let pressed := Controller.handleMouseDown p s pt in
  Controller.cursor hovered
  = Page.cursor_for (Controller.gestureState pressed) /\
  Controller.floorPlanPosition hovered = Controller.floorPlanPosition s /\
  Controller.backgroundPosition hovered = Controller.backgroundPosition s /\
  Controller.gestureState hovered = Controller.Idle.
Proof.
  intros HI hovered pressed.
  destruct (idle_flags s HI) as [D [R [BD BR]]].
  assert (A : Controller.activeGesture p s = Controller.Idle).
  { unfold Controller.activeGesture. rewrite D, R, BD, BR. reflexivity. }
  subst hovered pressed.
  rewrite (move_Idle p s pt A).
  rewrite (handleMouseDown_first_match p s pt HI).
  cbn [Controller.setCursor Controller.cursor Controller.floorPlanPosition
       Controller.backgroundPosition].
  split; [apply hover_cursor_first_match|].
  split; [reflexivity|]. split; [reflexivity|].
  unfold Controller.gestureState. cbn. rewrite D, R, BD, BR. reflexivity.
Qed.

Lemma hover_cursor_announces_gesture_witness :
  Controller.cursor
    (Controller.handleMouseMove Scenario.both_layers Scenario.mounted
       (Controller.mkPoint 1030 1040))
  = Controller.CursorNwResize.
Proof.
  exact (proj1 (hover_cursor_announces_gesture Scenario.both_layers
                  Scenario.mounted (Controller.mkPoint 1030 1040) eq_refl)).
Defined.

(** The state after a pointer move depends on the pointer position of that
    move only, not on the positions visited before it: any move followed by
    a move to [pt2] gives the state of a single move to [pt2]. *)
Theorem handleMouseMove_last_position_wins
    (p : Controller.Props) (s : Controller.State)
    (pt1 pt2 : Controller.Point) :
  Controller.handleMouseMove p (Controller.handleMouseMove p s pt1) pt2
  = Controller.handleMouseMove p s pt2.
Proof.
  pose proof (activeGesture_after_move p s pt1) as A.
  destruct (activeGesture_cases p s) as [G | [G | [G | [G | G]]]];
    rewrite G in A.
  - rewrite (move_Idle _ _ pt2 A), (move_Idle _ _ pt2 G), (move_Idle _ _ pt1 G).
    reflexivity.
  - rewrite (move_DraggingFloorPlan _ _ pt2 A),
      (move_DraggingFloorPlan _ _ pt2 G), (move_DraggingFloorPlan _ _ pt1 G).
    reflexivity.
  - rewrite (move_ResizingFloorPlan _ _ pt2 A),
      (move_ResizingFloorPlan _ _ pt2 G), (move_ResizingFloorPlan _ _ pt1 G).
    reflexivity.
  - rewrite (move_DraggingBackground _ _ pt2 A),
      (move_DraggingBackground _ _ pt2 G), (move_DraggingBackground _ _ pt1 G).
    reflexivity.
  - rewrite (move_ResizingBackground _ _ pt2 A),
      (move_ResizingBackground _ _ pt2 G), (move_ResizingBackground _ _ pt1 G).
    reflexivity.
Qed.

(** A pointer move changes the rectangle of the layer of the active
    gesture at most: every other layer keeps its rectangle. *)
Theorem handleMouseMove_touches_one_layer
    (p : Controller.Props) (s : Controller.State) (pt : Controller.Point)
    (l : Layer) :
  Controller.gesture_layer (Controller.activeGesture p s) <> Some l ->
  Controller.layer_rect (Controller.handleMouseMove p s pt) l
  = Controller.layer_rect s l.
Proof.
  intro N.
  destruct (activeGesture_cases p s) as [G | [G | [G | [G | G]]]];
    rewrite G in N.
  - rewrite (move_Idle _ _ pt G). destruct l; reflexivity.
  - rewrite (move_DraggingFloorPlan _ _ pt G).
    destruct l; [reflexivity | exfalso; apply N; reflexivity].
  - rewrite (move_ResizingFloorPlan _ _ pt G).
    destruct l; [reflexivity | exfalso; apply N; reflexivity].
  - rewrite (move_DraggingBackground _ _ pt G).
    destruct l; [exfalso; apply N; reflexivity | reflexivity].
  - rewrite (move_ResizingBackground _ _ pt G).
    destruct l; [exfalso; apply N; reflexivity | reflexivity].
Qed.

Lemma handleMouseMove_touches_one_layer_witness :
  Controller.backgroundPosition
    (Controller.handleMouseMove Scenario.both_layers Scenario.plan_grabbed
       (Controller.mkPoint 600 800))
  = Controller.backgroundPosition Scenario.plan_grabbed.
Proof.
  apply (handleMouseMove_touches_one_layer Scenario.both_layers
           Scenario.plan_grabbed (Controller.mkPoint 600 800) BackgroundLayer).
  discriminate.
Defined.

(** While a layer is being resized and the pointer is within the layer's
    limits, the bottom-right corner of the rectangle is at the pointer. *)
Theorem resize_follows_pointer
    (p : Controller.Props) (s : Controller.State) (pt : Controller.Point) :
  let fp := Controller.floorPlanPosition s in
  let bg := Controller.backgroundPosition s in
  let fp' := Controller.floorPlanPosition (Controller.handleMouseMove p s pt) in
  let bg' := Controller.backgroundPosition (Controller.handleMouseMove p s pt) in
  let x := Controller.px pt in
  let y := Controller.py pt in
  (Controller.activeGesture p s = Controller.ResizingFloorPlan ->
   rx fp + 100 <= x <= 1070 -> ry fp + 75 <= y <= 1910 ->
   rx fp' + rwidth fp' == x /\ ry fp' + rheight fp' == y) /\
  (Controller.activeGesture p s = Controller.ResizingBackground ->
   rx bg + 400 <= x <= 1480 -> ry bg + 300 <= y <= 2220 ->
   rx bg' + rwidth bg' == x /\ ry bg' + rheight bg' == y).
Proof.
  intros fp bg fp' bg' x y. split; intros G Hx Hy.
  - subst fp'. rewrite (move_ResizingFloorPlan p s pt G).
    cbn [Controller.setFloorPlanPosition Controller.floorPlanPosition
         rx ry rwidth rheight]. fold fp x y.
    rewrite (Q.max_r 100 (x - rx fp)) by lra.
    rewrite (Q.max_r 75 (y - ry fp)) by lra.
    rewrite (Q.min_l (x - rx fp)) by lra.
    rewrite (Q.min_l (y - ry fp)) by lra.
    split; lra.
  - subst bg'. rewrite (move_ResizingBackground p s pt G).
    cbn [Controller.setBackgroundPosition Controller.backgroundPosition
         rx ry rwidth rheight]. fold bg x y.
    rewrite (Q.max_r 400 (x - rx bg)) by lra.
    rewrite (Q.max_r 300 (y - ry bg)) by lra.
    rewrite (Q.min_l (x - rx bg)) by lra.
    rewrite (Q.min_l (y - ry bg)) by lra.
    split; lra.
Qed.

Lemma resize_follows_pointer_witness :
  let s := Controller.handleMouseDown Scenario.both_layers Scenario.mounted
             (Controller.mkPoint 1030 1040) in
  let s' := Controller.handleMouseMove Scenario.both_layers s
              (Controller.mkPoint 900 950) in
  rx (Controller.floorPlanPosition s') + rwidth (Controller.floorPlanPosition s')
  == 900.
Proof.
  intros s s'.
  pose proof (resize_follows_pointer Scenario.both_layers s
                (Controller.mkPoint 900 950)) as H.
  cbv zeta in H. destruct H as [H _].
  apply H.
  - reflexivity.
  - split; vm_compute; discriminate.
  - split; vm_compute; discriminate.
Defined.

(** While a layer is being dragged and no clamp bound is reached, the
    rectangle keeps the grab offset to the pointer: the pointer stays over
    the same spot of the layer. *)
Theorem drag_follows_pointer
    (p : Controller.Props) (s : Controller.State) (pt : Controller.Point) :
  let fp := Controller.floorPlanPosition s in
  let bg := Controller.backgroundPosition s in
  let fp' := Controller.floorPlanPosition (Controller.handleMouseMove p s pt) in
  let bg' := Controller.backgroundPosition (Controller.handleMouseMove p s pt) in
  let tx := Controller.px pt - Controller.px (Controller.dragStart s) in
  let ty := Controller.py pt - Controller.py (Controller.dragStart s) in
  (Controller.activeGesture p s = Controller.DraggingFloorPlan ->
   0 <= tx <= 1080 - rwidth fp -> 200 <= ty <= 1720 - rheight fp ->
   rx fp' == tx /\ ry fp' == ty) /\
  (Controller.activeGesture p s = Controller.DraggingBackground ->
   -200 <= tx <= 1280 -> 0 <= ty <= 1920 - rheight bg ->
   rx bg' == tx /\ ry bg' == ty).
Proof.
  intros fp bg fp' bg' tx ty. split; intros G Hx Hy.
  - subst fp'. rewrite (move_DraggingFloorPlan p s pt G).
    cbn [Controller.setFloorPlanPosition Controller.floorPlanPosition
         rx ry rwidth rheight]. fold fp tx ty.
    split; apply clamp_id; lra.
  - subst bg'. rewrite (move_DraggingBackground p s pt G).
    cbn [Controller.setBackgroundPosition Controller.backgroundPosition
         rx ry rwidth rheight]. fold bg tx ty.
    split; apply clamp_id; lra.
Qed.

Lemma drag_follows_pointer_witness :
  rx (Controller.floorPlanPosition
        (Controller.handleMouseMove Scenario.both_layers Scenario.plan_grabbed
           (Controller.mkPoint 400 800))) == 340.
Proof.
  pose proof (drag_follows_pointer Scenario.both_layers Scenario.plan_grabbed
                (Controller.mkPoint 400 800)) as H.
  cbv zeta in H. destruct H as [H _].
  destruct H as [H _].
  - reflexivity.
  - split; vm_compute; discriminate.
  - split; vm_compute; discriminate.
  - rewrite H. reflexivity.
Defined.

(** Releasing the button (or leaving the canvas) ends every gesture, for
    any props, without touching the rectangles; the moves that follow only
    hover. *)
Theorem handleMouseUp_ends_gesture
    (p : Controller.Props) (s : Controller.State) (pt : Controller.Point) :
  let released := Controller.handleMouseUp s in
  Controller.activeGesture p released = Controller.Idle /\
  Controller.floorPlanPosition released = Controller.floorPlanPosition s /\
  Controller.backgroundPosition released = Controller.backgroundPosition s /\
  Controller.cursor released = Controller.CursorDefault /\
  Controller.floorPlanPosition (Controller.handleMouseMove p released pt)
  = Controller.floorPlanPosition s /\
  Controller.backgroundPosition (Controller.handleMouseMove p released pt)
  = Controller.backgroundPosition s.
Proof.
  intro released.
  assert (A : Controller.activeGesture p released = Controller.Idle)
    by reflexivity.
  split; [exact A|]. repeat (split; [reflexivity|]).
  rewrite (move_Idle p released pt A). split; reflexivity.
Qed.

(** ** Invariants of a whole session *)

Section Sessions.

Import Controller Debounce.

Lemma state_runEffect (w : World) : state (runEffect w) = state w.
Proof. unfold runEffect. destruct (cleanup w); reflexivity. Qed.

(** A property of the component state that the three handlers keep holds
    throughout any session. *)
Lemma run_invariant (I : State -> Prop) (trace : list Event) :
  (forall p s pt, I s -> I (handleMouseDown p s pt)) ->
  (forall p s pt, I s -> I (handleMouseMove p s pt)) ->
  (forall s, I s -> I (handleMouseUp s)) ->
  forall w, I (state w) -> I (state (run w trace)).
Proof.
  intros HD HM HU. unfold run.
  induction trace as [|e trace IH]; intros w H; [exact H|].
  cbn [fold_left]. apply IH.
  destruct e; cbn [step].
  - apply HD, H.
  - destruct (moveMutates (props w) (state w));
      [rewrite state_runEffect|]; apply HM, H.
  - apply HU, H.
  - exact H.
Qed.

Lemma move_keeps_floor_plan_in_bounds (p : Props) (s : State) (pt : Point) :
  floor_plan_in_bounds (floorPlanPosition s) ->
  floor_plan_in_bounds (floorPlanPosition (handleMouseMove p s pt)).
Proof.
  intros [[X0 X1] [Y0 Y1]].
  destruct (activeGesture_cases p s) as [G | [G | [G | [G | G]]]].
  - rewrite (move_Idle _ _ pt G). repeat split; assumption.
  - rewrite (move_DraggingFloorPlan _ _ pt G).
    cbn [setFloorPlanPosition floorPlanPosition].
    unfold floor_plan_in_bounds. cbn [rx ry rwidth rheight].
    split; split; try apply clamp_lower.
    + apply clamp_upper. lra.
    + destruct (Qlt_le_dec (rheight (floorPlanPosition s)) 1520) as [L|L].
      * apply Qle_trans with (1720 - rheight (floorPlanPosition s));
          [apply clamp_upper; lra | lra].
      * rewrite clamp_collapsed by lra. lra.
  - rewrite (move_ResizingFloorPlan _ _ pt G).
    cbn [setFloorPlanPosition floorPlanPosition].
    unfold floor_plan_in_bounds. cbn [rx ry rwidth rheight].
    pose proof (Q.le_min_r (Qmax 100 (px pt - rx (floorPlanPosition s)))
                  (1070 - rx (floorPlanPosition s))).
    pose proof (Q.le_min_r (Qmax 75 (py pt - ry (floorPlanPosition s)))
                  (1910 - ry (floorPlanPosition s))).
    repeat split; lra.
  - rewrite (move_DraggingBackground _ _ pt G). repeat split; assumption.
  - rewrite (move_ResizingBackground _ _ pt G). repeat split; assumption.
Qed.

Lemma move_keeps_background_invariant (p : Props) (s : State) (pt : Point) :
  Page.background_invariant (backgroundPosition s) ->
  Page.background_invariant (backgroundPosition (handleMouseMove p s pt)).
Proof.
  intros [[X0 X1] [[Y0 Y1] [[W0 W1] [H0 H1]]]].
  destruct (activeGesture_cases p s) as [G | [G | [G | [G | G]]]].
  - rewrite (move_Idle _ _ pt G). repeat split; assumption.
  - rewrite (move_DraggingFloorPlan _ _ pt G). repeat split; assumption.
  - rewrite (move_ResizingFloorPlan _ _ pt G). repeat split; assumption.
  - rewrite (move_DraggingBackground _ _ pt G).
    cbn [setBackgroundPosition backgroundPosition].
    unfold Page.background_invariant. cbn [rx ry rwidth rheight].
    split; [split; [apply clamp_lower | apply clamp_upper; lra]|].
    split; [split; [apply clamp_lower|] | repeat split; assumption].
    destruct (Qlt_le_dec 1920 (rheight (backgroundPosition s))) as [L|L].
    + rewrite clamp_collapsed by lra. lra.
    + apply Qle_trans with (1920 - rheight (backgroundPosition s));
        [apply clamp_upper; lra | lra].
  - rewrite (move_ResizingBackground _ _ pt G).
    cbn [setBackgroundPosition backgroundPosition].
    unfold Page.background_invariant. cbn [rx ry rwidth rheight].
    set (w := Qmin (Qmax 400 (px pt - rx (backgroundPosition s)))
                (1480 - rx (backgroundPosition s))).
    set (h := Qmin (Qmax 300 (py pt - ry (backgroundPosition s)))
                (2220 - ry (backgroundPosition s))).
    assert (Hw1 : w <= 1480 - rx (backgroundPosition s)) by apply Q.le_min_r.
    assert (Hh1 : h <= 2220 - ry (backgroundPosition s)) by apply Q.le_min_r.
    assert (Hw2 : 200 <= w).
    { apply Q.min_glb; [|lra].
      apply Qle_trans with 400; [lra | apply Q.le_max_l]. }
    assert (Hh2 : 300 <= h).
    { apply Q.min_glb; [apply Q.le_max_l | lra]. }
    repeat split; lra.
Qed.

End Sessions.

(** Whatever the session (any presses, moves, releases and pauses, at any
    pointer positions, on or off the canvas), a floor plan that starts
    within its bounds stays within them: [0 <= x], [200 <= y],
    [x + width <= 1080] and [y + height <= 1920].  The default rectangle
    starts within them. *)
Theorem floor_plan_stays_on_canvas
    (p : Controller.Props)
    (initialFloorPlanPosition : option FloorPlanPosition)
    (initialBackgroundPosition : option BackgroundPosition)
    (trace : list Debounce.Event) :
  Controller.floor_plan_in_bounds
    (Controller.floorPlanPosition
       (Controller.initial_state initialFloorPlanPosition
          initialBackgroundPosition)) ->
  Controller.floor_plan_in_bounds
    (Controller.floorPlanPosition
       (Debounce.state
          (Debounce.run
             (Debounce.mount p initialFloorPlanPosition
                initialBackgroundPosition) trace))).
Proof.
  intro H.
  apply (run_invariant
           (fun s => Controller.floor_plan_in_bounds
                       (Controller.floorPlanPosition s))).
  - intros p' s pt I.
    rewrite (proj1 (handleMouseDown_keeps_rects p' s pt)). exact I.
  - intros p' s pt I. apply move_keeps_floor_plan_in_bounds, I.
  - intros s I. exact I.
  - unfold Debounce.mount. rewrite state_runEffect. exact H.
Qed.

Lemma floor_plan_stays_on_canvas_witness :
  Controller.floor_plan_in_bounds
    (Controller.floorPlanPosition Scenario.narrow_plan_at_edge).
Proof.
  apply (floor_plan_stays_on_canvas Scenario.both_layers None None).
  repeat split; vm_compute; discriminate.
Defined.

(** Whatever the session, a background that starts with
    [-200 <= x <= 1280], [0 <= y <= 1620], a width in [200, 1680] and a
    height in [300, 2220] keeps all of these: in particular its size stays
    positive and its height never drops below the minimum of 300.  The
    default rectangle starts within them. *)
Theorem background_keeps_its_invariant
    (p : Controller.Props)
    (initialFloorPlanPosition : option FloorPlanPosition)
    (initialBackgroundPosition : option BackgroundPosition)
    (trace : list Debounce.Event) :
  Page.background_invariant
    (Controller.backgroundPosition
       (Controller.initial_state initialFloorPlanPosition
          initialBackgroundPosition)) ->
  Page.background_invariant
    (Controller.backgroundPosition
       (Debounce.state
          (Debounce.run
             (Debounce.mount p initialFloorPlanPosition
                initialBackgroundPosition) trace))).
Proof.
  intro H.
  apply (run_invariant
           (fun s => Page.background_invariant
                       (Controller.backgroundPosition s))).
  - intros p' s pt I.
    rewrite (proj2 (handleMouseDown_keeps_rects p' s pt)). exact I.
  - intros p' s pt I. apply move_keeps_background_invariant, I.
  - intros s I. exact I.
  - unfold Debounce.mount. rewrite state_runEffect. exact H.
Qed.

Lemma background_keeps_its_invariant_witness :
  Page.background_invariant
    (Controller.backgroundPosition Scenario.narrow_plan_at_edge).
Proof.
  apply (background_keeps_its_invariant Scenario.both_layers None None).
  repeat split; vm_compute; discriminate.
Defined.

(** ** More on the debounced notification *)

Section Notifications.

Import Controller Debounce.

Lemma up_to_date_single (w : World) :
  Page.timers_up_to_date w -> single_timer w.
Proof.
  intros [E | (id & d & E & C)]; [left; exact E|].
  right. eexists. split; [exact E | exact C].
Qed.

Lemma up_to_date_runEffect (w : World) :
  single_timer w -> Page.timers_up_to_date (runEffect w).
Proof.
  intro S. destruct (runEffect_arms w S) as (T & C & _ & _ & _ & St).
  right. exists (next_id w), (now w + 100)%Z. rewrite St. split; assumption.
Qed.

Lemma up_to_date_elapse (dt : Z) (w : World) :
  Page.timers_up_to_date w -> Page.timers_up_to_date (elapse dt w).
Proof.
  intros [E | (id & d & E & C)]; unfold Page.timers_up_to_date, elapse; cbn;
    rewrite E; cbn.
  - left. reflexivity.
  - match goal with |- context [due ?n ?t] => destruct (due n t) end; cbn;
      [left; reflexivity|].
    right. exists id, d. split; [reflexivity | exact C].
Qed.

Lemma moveMutates_false_Idle (p : Props) (s : State) :
  moveMutates p s = false -> activeGesture p s = Idle.
Proof.
  unfold moveMutates, activeGesture.
  destruct (isDragging s && present (floorPlan p)); [discriminate|].
  destruct (isResizing s && present (floorPlan p)); [discriminate|].
  destruct (backgroundDragging s && present (backgroundImage p));
    [discriminate|].
  destruct (backgroundResizing s && present (backgroundImage p));
    [discriminate | reflexivity].
Qed.

Lemma up_to_date_step (w : World) (e : Event) :
  Page.timers_up_to_date w -> Page.timers_up_to_date (step w e).
Proof.
  intro H. destruct e; cbn [step].
  - unfold Page.timers_up_to_date. cbn [with_state timers state cleanup].
    destruct (handleMouseDown_keeps_rects (props w) (state w) pt) as [F B].
    rewrite F, B. exact H.
  - destruct (moveMutates (props w) (state w)) eqn:M.
    + apply up_to_date_runEffect, single_timer_with_state, up_to_date_single, H.
    + unfold Page.timers_up_to_date. cbn [with_state timers state cleanup].
      rewrite (move_Idle _ _ pt (moveMutates_false_Idle _ _ M)). exact H.
  - exact H.
  - apply up_to_date_elapse, H.
Qed.

Lemma up_to_date_run (trace : list Event) (w : World) :
  Page.timers_up_to_date w -> Page.timers_up_to_date (run w trace).
Proof.
  unfold run. revert w.
  induction trace as [|e trace IH]; intros w H; [exact H|].
  cbn [fold_left]. apply IH, up_to_date_step, H.
Qed.

End Notifications.

(** In any session a pause emits at most one notification, and the
    notification carries the rectangles the component has at that moment:
    a layout that has been replaced since is never reported. *)
Theorem notifications_are_current
    (p : Controller.Props)
    (initialFloorPlanPosition : option FloorPlanPosition)
    (initialBackgroundPosition : option BackgroundPosition)
    (trace : list Debounce.Event) (dt : Z) :
  let w := Debounce.run
             (Debounce.mount p initialFloorPlanPosition initialBackgroundPosition)
             trace in
  exists sent,
    Debounce.emitted (Debounce.step w (Debounce.Elapse dt))
    = Debounce.emitted w ++ sent /\
    (List.length sent <= 1)%nat /\
    Forall (fun n =>
              Debounce.sent_floorPlan n
              = Controller.floorPlanPosition (Debounce.state w) /\
              Debounce.sent_background n
              = Controller.backgroundPosition (Debounce.state w) /\
              (Debounce.emitted_at n <= Debounce.now w + dt)%Z) sent.
Proof.
  intro w.
  assert (U : Page.timers_up_to_date w).
  { apply up_to_date_run. unfold Debounce.mount.
    apply up_to_date_runEffect. left. reflexivity. }
  cbn [Debounce.step]. unfold Debounce.elapse. cbn [Debounce.emitted].
  eexists. split; [reflexivity|].
  destruct U as [E | (id & d & E & C)]; rewrite E; cbn.
  - split; [lia | constructor].
  - match goal with
    | |- context [Debounce.due ?n ?t] => destruct (Debounce.due n t) eqn:D
    end; cbn.
    + unfold Debounce.fire. cbn.
      destruct (Controller.onPositionChange (Debounce.props w)); cbn.
      * split; [lia|]. constructor; [|constructor].
        split; [reflexivity|]. split; [reflexivity|].
        cbn [Debounce.emitted_at]. apply Z.leb_le. exact D.
      * split; [lia | constructor].
    + split; [lia | constructor].
Qed.

(** A freshly mounted component notifies its parent of the initial layout
    100 ms after mounting, without any gesture having taken place. *)
Theorem mount_emits_initial_layout
    (p : Controller.Props)
    (initialFloorPlanPosition : option FloorPlanPosition)
    (initialBackgroundPosition : option BackgroundPosition) (T : Z) :
  Controller.onPositionChange p = true ->
  (100 <= T)%Z ->
  let s0 := Controller.initial_state initialFloorPlanPosition
              initialBackgroundPosition in
  Debounce.emitted
    (Debounce.run
       (Debounce.mount p initialFloorPlanPosition initialBackgroundPosition)
       [Debounce.Elapse T])
  = [ Debounce.mkNotification 100
        (Controller.floorPlanPosition s0) (Controller.backgroundPosition s0) ] /\
  forall dt, (0 <= dt < 100)%Z ->
    Debounce.emitted
      (Debounce.run
         (Debounce.mount p initialFloorPlanPosition initialBackgroundPosition)
         [Debounce.Elapse dt]) = [].
Proof.
  intros CB HT s0. split.
  - cbn. unfold Debounce.due. cbn.
    replace (100 <=? T)%Z with true by (symmetry; apply Z.leb_le; lia).
    cbn. unfold Debounce.fire. cbn. rewrite CB. reflexivity.
  - intros dt Hdt. cbn. unfold Debounce.due. cbn.
    replace (100 <=? dt)%Z with false by (symmetry; apply Z.leb_gt; lia).
    reflexivity.
Qed.

Lemma mount_emits_initial_layout_witness :
  Debounce.emitted
    (Debounce.run (Debounce.mount Scenario.both_layers None None)
       [Debounce.Elapse 250])
  = [ Debounce.mkNotification 100
        Controller.default_floorPlanPosition
        Controller.default_backgroundPosition ].
Proof.
  apply (mount_emits_initial_layout Scenario.both_layers None None 250).
  - reflexivity.
  - lia.
Defined.

(** Without the optional [onPositionChange] prop no session ever emits a
    notification. *)
Theorem silent_without_callback
    (p : Controller.Props)
    (initialFloorPlanPosition : option FloorPlanPosition)
    (initialBackgroundPosition : option BackgroundPosition)
    (trace : list Debounce.Event) :
  Controller.onPositionChange p = false ->
  Debounce.emitted
    (Debounce.run
       (Debounce.mount p initialFloorPlanPosition initialBackgroundPosition)
       trace) = [].
Proof. apply no_callback_no_notification. Qed.

Lemma silent_without_callback_witness :
  Debounce.emitted
    (Debounce.run
       (Debounce.mount
          (Controller.mkProps (Some Scenario.photo) (Some Scenario.plan) false)
          None None)
       [ Debounce.PointerDown (Controller.mkPoint 500 700);
         Debounce.PointerMove (Controller.mkPoint 510 700);
         Debounce.Elapse 500 ]) = [].
Proof.
  apply (silent_without_callback
           (Controller.mkProps (Some Scenario.photo) (Some Scenario.plan) false)).
  reflexivity.
Defined.

(** ** More on the compositor *)

Section Frames.

Variable propertyData : PropertyFormData.

(** Case analysis of a frame that was drawn: what each image block
    contributed. *)
Ltac frame_cases H backgroundImage floorPlan backgroundColor :=
  unfold Compositor.drawStoryCanvas, Compositor.draw_background,
    Compositor.draw_floor_plan, Compositor.clear_canvas in H;
  destruct backgroundImage as [[bgImg|]|];
    cbn [loadImage bind] in H;
    [ destruct (Compositor.background_rect bgImg _) as [[bgX bgY bgW bgH]|];
      [cbn [bind rx ry rwidth rheight] in H | discriminate H] | | ];
  (destruct floorPlan as [[planImg|]|];
    cbn [loadImage bind] in H;
    [ destruct (Compositor.floor_plan_rect _) as [planX planY planW planH];
      cbn [rx ry rwidth rheight] in H;
      destruct (calculateImageFit planImg _ _) as [[fx fy fw fh]|];
      [cbn [bind rx ry rwidth rheight] in H | discriminate H] | | ]);
  destruct (truthy_string backgroundColor) as [css|].

(** A frame drawn without editing handles contains no border, no handle and
    no glyph: not a single stroke or line-style call is made. *)
Theorem clean_render_has_no_chrome
    (backgroundImage floorPlan : option File)
    (floorPlanPosition : option FloorPlanPosition)
    (backgroundPosition : option BackgroundPosition)
    (backgroundColor : option string) (calls : list Call) :
  Compositor.drawStoryCanvas propertyData backgroundImage floorPlan
    floorPlanPosition backgroundPosition backgroundColor false = Some calls ->
  Forall (fun c => Page.is_chrome c = false) calls /\
  dashed_borders calls = [].
Proof.
  intro H.
  frame_cases H backgroundImage floorPlan backgroundColor;
    injection H as <-; (split; [repeat constructor | reflexivity]).
Qed.

(** The editing handles do not change where anything else is painted: with
    and without them the two bitmaps and the scrim land in the same
    rectangles, and a frame is produced in the same cases. *)
Theorem handles_do_not_move_layers
    (backgroundImage floorPlan : option File)
    (floorPlanPosition : option FloorPlanPosition)
    (backgroundPosition : option BackgroundPosition)
    (backgroundColor : option string) :
  option_map Page.layout_of
    (Compositor.drawStoryCanvas propertyData backgroundImage floorPlan
       floorPlanPosition backgroundPosition backgroundColor true)
  = option_map Page.layout_of
      (Compositor.drawStoryCanvas propertyData backgroundImage floorPlan
         floorPlanPosition backgroundPosition backgroundColor false).
Proof.
  unfold Compositor.drawStoryCanvas, Compositor.draw_background,
    Compositor.draw_floor_plan, Compositor.clear_canvas.
  destruct backgroundImage as [[bgImg|]|]; cbn [loadImage bind];
    [destruct (Compositor.background_rect bgImg _) as [[bgX bgY bgW bgH]|];
     [cbn [bind rx ry rwidth rheight] | reflexivity] | | ];
    (destruct floorPlan as [[planImg|]|]; cbn [loadImage bind];
     [destruct (Compositor.floor_plan_rect _) as [planX planY planW planH];
      cbn [rx ry rwidth rheight];
      destruct (calculateImageFit planImg _ _) as [[fx fy fw fh]|];
      [cbn [bind rx ry rwidth rheight] | reflexivity] | | ]);
    destruct (truthy_string backgroundColor) as [css|]; reflexivity.
Qed.

(** A file that fails to decode is rendered exactly as if no file had been
    given: the other layer, the text and the card are drawn as usual, and
    neither a bitmap nor a scrim appears for the failed background. *)
Theorem decode_failure_omits_layer
    (backgroundImage floorPlan : option File)
    (floorPlanPosition : option FloorPlanPosition)
    (backgroundPosition : option BackgroundPosition)
    (backgroundColor : option string) (showEditingHandles : bool) :
  Compositor.drawStoryCanvas propertyData (Some Corrupt) floorPlan
    floorPlanPosition backgroundPosition backgroundColor showEditingHandles
  = Compositor.drawStoryCanvas propertyData None floorPlan
      floorPlanPosition backgroundPosition backgroundColor showEditingHandles /\
  Compositor.drawStoryCanvas propertyData backgroundImage (Some Corrupt)
    floorPlanPosition backgroundPosition backgroundColor showEditingHandles
  = Compositor.drawStoryCanvas propertyData backgroundImage None
      floorPlanPosition backgroundPosition backgroundColor showEditingHandles /\
  forall calls,
    Compositor.drawStoryCanvas propertyData (Some Corrupt) floorPlan
      floorPlanPosition backgroundPosition backgroundColor showEditingHandles
    = Some calls ->
    overlays_after BackgroundLayer (paint calls) = None /\
    bitmaps BackgroundLayer (paint calls) = [].
Proof.
  split; [reflexivity|]. split; [reflexivity|].
  intros calls H.
  unfold Compositor.drawStoryCanvas, Compositor.draw_background,
    Compositor.draw_floor_plan, Compositor.clear_canvas in H.
  cbn [loadImage bind] in H.
  destruct floorPlan as [[planImg|]|]; cbn [loadImage bind] in H;
    [destruct (Compositor.floor_plan_rect _) as [planX planY planW planH];
     cbn [rx ry rwidth rheight] in H;
     destruct (calculateImageFit planImg _ _) as [[fx fy fw fh]|];
     [cbn [bind rx ry rwidth rheight] in H | discriminate H] | | ];
    injection H as <-;
    destruct (truthy_string backgroundColor) as [css|];
    destruct showEditingHandles; split; reflexivity.
Qed.

(** Without a supplied rectangle, a background image of positive size is
    drawn inside the band of the canvas from [y = 150] to [y = 1494], over
    the full width of the canvas or the full height of the band, with its
    aspect ratio kept. *)
Theorem default_background_placement
    (file : File) (img : Image) (floorPlan : option File)
    (floorPlanPosition : option FloorPlanPosition)
    (backgroundColor : option string) (showEditingHandles : bool)
    (calls : list Call) :
  loadImage file = Some img ->
  0 < img_width img -> 0 < img_height img ->
  Compositor.drawStoryCanvas propertyData (Some file) floorPlan
    floorPlanPosition None backgroundColor showEditingHandles = Some calls ->
  exists r,
    bitmaps BackgroundLayer (paint calls) = [r] /\
    0 <= rx r /\ 150 <= ry r /\
    rx r + rwidth r <= 1080 /\ ry r + rheight r <= 1494 /\
    (rwidth r == 1080 \/ rheight r == 1344) /\
    rwidth r * img_height img == rheight r * img_width img.
Proof.
  intros L Hw Hh H.
  destruct (drawStoryCanvas_scrim_confined propertyData file floorPlan
              floorPlanPosition None backgroundColor showEditingHandles
              img calls L H) as [r [R [_ B]]].
  exists r. split; [exact B|].
  rewrite background_rect_default in R.
  destruct img as [iw ih]. cbn [img_width img_height] in *.
  assert (Hc : 0 < 1920 * 0.7) by reflexivity.
  rewrite (calculateImageFit_refines iw ih 1080 (1920 * 0.7) Hw Hh eq_refl Hc)
    in R.
  cbn [option_map] in R. injection R as <-. cbn [rx ry rwidth rheight].
  destruct (aspect_fit_spec_within iw ih 1080 (1920 * 0.7) Hw Hh eq_refl Hc)
    as (X0 & Y0 & X1 & Y1).
  assert (Hia : 0 < iw / ih) by (apply Qdiv_pos; assumption).
  split; [exact X0|]. split; [lra|]. split; [exact X1|]. split; [lra|].
  unfold aspect_fit_spec.
  destruct (Qlt_le_dec (1080 / (1920 * 0.7)) (iw / ih));
    cbn [rwidth rheight].
  - split; [left; reflexivity | field; lra].
  - split; [right; reflexivity | field; lra].
Qed.

(** The floor-plan image of positive size is drawn inside the floor-plan
    rectangle, at least 2 pixels away from each of its edges, whenever the
    rectangle is more than 4 wide and 4 high. *)
Theorem floor_plan_image_inside_border
    (backgroundImage : option File) (planImg : Image)
    (floorPlanPosition : option FloorPlanPosition)
    (backgroundPosition : option BackgroundPosition)
    (backgroundColor : option string) (showEditingHandles : bool)
    (calls : list Call) :
  0 < img_width planImg -> 0 < img_height planImg ->
  4 < rwidth (Compositor.floor_plan_rect floorPlanPosition) ->
  4 < rheight (Compositor.floor_plan_rect floorPlanPosition) ->
  Compositor.drawStoryCanvas propertyData backgroundImage
    (Some (Decodable planImg)) floorPlanPosition backgroundPosition
    backgroundColor showEditingHandles = Some calls ->
  exists b,
    bitmaps FloorPlanLayer (paint calls) = [b] /\
    Page.inside_inset 2 (Compositor.floor_plan_rect floorPlanPosition) b.
Proof.
  intros Hiw Hih Hw Hh H.
  destruct planImg as [iw ih]. cbn [img_width img_height] in *.
  unfold Compositor.drawStoryCanvas, Compositor.draw_background,
    Compositor.draw_floor_plan, Compositor.clear_canvas in H.
  cbn [loadImage] in H.
  destruct (Compositor.floor_plan_rect floorPlanPosition)
    as [planX planY planW planH].
  cbn [rx ry rwidth rheight] in *.
  assert (Hw' : 0 < planW - 4) by lra.
  assert (Hh' : 0 < planH - 4) by lra.
  rewrite (calculateImageFit_refines iw ih _ _ Hiw Hih Hw' Hh') in H.
  destruct (aspect_fit_spec_within iw ih _ _ Hiw Hih Hw' Hh')
    as (X0 & Y0 & X1 & Y1).
  destruct (aspect_fit_spec iw ih (planW - 4) (planH - 4)) as [fx fy fw fh].
  cbn [rx ry rwidth rheight bind] in *.
  exists (mkRect (planX + 2 + fx) (planY + 2 + fy) fw fh).
  split.
  - destruct backgroundImage as [[bgImg|]|]; cbn [loadImage bind] in H;
      [destruct (Compositor.background_rect bgImg _) as [[bgX bgY bgW bgH]|];
       [cbn [bind rx ry rwidth rheight] in H | discriminate H] | | ];
      injection H as <-;
      destruct (truthy_string backgroundColor) as [css|];
      destruct showEditingHandles; reflexivity.
  - unfold Page.inside_inset. cbn [rx ry rwidth rheight].
    repeat split; lra.
Qed.

End Frames.

Lemma clean_render_has_no_chrome_witness :
  exists calls,
    Compositor.drawStoryCanvas Page.sample_data (Some Scenario.photo)
      (Some Scenario.plan) (Some (mkRect 440 650 600 400))
      (Some (mkRect 0 150 1080 1350)) None false = Some calls /\
    dashed_borders calls = [].
Proof.
  destruct (Compositor.drawStoryCanvas Page.sample_data (Some Scenario.photo)
              (Some Scenario.plan) (Some (mkRect 440 650 600 400))
              (Some (mkRect 0 150 1080 1350)) None false)
    as [calls|] eqn:E; [|discriminate E].
  exists calls. split; [reflexivity|].
  exact (proj2 (clean_render_has_no_chrome Page.sample_data _ _ _ _ _ calls E)).
Defined.

Lemma default_background_placement_witness :
  exists calls r,
    Compositor.drawStoryCanvas Page.sample_data (Some Scenario.photo) None None None
      None true = Some calls /\
    bitmaps BackgroundLayer (paint calls) = [r] /\
    150 <= ry r /\ ry r + rheight r <= 1494.
Proof.
  destruct (Compositor.drawStoryCanvas Page.sample_data (Some Scenario.photo) None
              None None None true) as [calls|] eqn:E; [|discriminate E].
  destruct (default_background_placement Page.sample_data Scenario.photo (mkImage 1920 1080)
              None None None true calls eq_refl eq_refl eq_refl E)
    as [r (B & _ & Y0 & _ & Y1 & _)].
  exists calls, r. split; [reflexivity|]. split; [exact B|].
  split; [exact Y0 | exact Y1].
Defined.

Lemma floor_plan_image_inside_border_witness :
  exists calls b,
    Compositor.drawStoryCanvas Page.sample_data None (Some Scenario.plan)
      (Some (mkRect 440 650 600 400)) None None true = Some calls /\
    bitmaps FloorPlanLayer (paint calls) = [b] /\
    Page.inside_inset 2 (mkRect 440 650 600 400) b.
Proof.
  destruct (Compositor.drawStoryCanvas Page.sample_data None (Some Scenario.plan)
              (Some (mkRect 440 650 600 400)) None None true)
    as [calls|] eqn:E; [|discriminate E].
  destruct (floor_plan_image_inside_border Page.sample_data None (mkImage 800 600)
              (Some (mkRect 440 650 600 400)) None None true calls
              eq_refl eq_refl eq_refl eq_refl E) as [b [B I]].
  exists calls, b. split; [reflexivity|]. split; [exact B | exact I].
Defined.

(** The exported image does not show the layout the user arranged: while
    the preview draws the background into the rectangle held by the
    component, [downloadImage] draws it into the fixed rectangle
    [{0, 150, 1080, 1350}] whatever the state, as a clean redraw of the
    freshly mounted component would. *)
Theorem downloadImage_ignores_layout
    (formValues : PropertyFormData) (p : Controller.Props)
    (s : Controller.State) (backgroundColor : option string)
    (showEditingHandles : bool) (img : Image)
    (exported previewed : list Call) :
  Controller.backgroundImage p = Some (Decodable img) ->
  Page.downloadImage formValues p backgroundColor = Some exported ->
  Controller.redrawCanvas formValues p s backgroundColor showEditingHandles
  = Some previewed ->
  bitmaps BackgroundLayer (paint exported) = [mkRect 0 150 1080 1350] /\
  bitmaps BackgroundLayer (paint previewed) = [Controller.backgroundPosition s] /\
  Page.downloadImage formValues p backgroundColor
  = Controller.redrawCanvas formValues p (Controller.initial_state None None)
      backgroundColor false.
Proof.
  intros Hbg HE HP.
  unfold Page.downloadImage in HE. unfold Controller.redrawCanvas in HP.
  rewrite Hbg in HE, HP. cbn [Controller.present] in HE, HP.
  split; [|split].
  - destruct (drawStoryCanvas_scrim_confined formValues (Decodable img) _ _ _ _ _ img
                exported eq_refl HE) as [r [R [_ B]]].
    rewrite background_rect_explicit in R. injection R as <-. exact B.
  - destruct (drawStoryCanvas_scrim_confined formValues (Decodable img) _ _ _ _ _ img
                previewed eq_refl HP) as [r [R [_ B]]].
    rewrite background_rect_explicit in R. injection R as <-. exact B.
  - reflexivity.
Qed.

Lemma downloadImage_ignores_layout_witness :
  let moved :=
    Controller.handleMouseMove Scenario.background_only
      (Controller.handleMouseDown Scenario.background_only Scenario.mounted
         (Controller.mkPoint 500 500))
      (Controller.mkPoint 600 450) in
  exists exported previewed,
    Page.downloadImage Page.sample_data Scenario.background_only None
    = Some exported /\
    Controller.redrawCanvas Page.sample_data Scenario.background_only moved
      None true = Some previewed /\
    bitmaps BackgroundLayer (paint exported) = [mkRect 0 150 1080 1350] /\
    bitmaps BackgroundLayer (paint previewed)
    = [Controller.backgroundPosition moved].
Proof.
  intro moved.
  destruct (Page.downloadImage Page.sample_data Scenario.background_only None)
    as [exported|] eqn:E1; [|discriminate E1].
  destruct (Controller.redrawCanvas Page.sample_data Scenario.background_only
              moved None true) as [previewed|] eqn:E2; [|discriminate E2].
  destruct (downloadImage_ignores_layout Page.sample_data
              Scenario.background_only moved None true (mkImage 1920 1080)
              exported previewed eq_refl E1 E2) as [B1 [B2 _]].
  exists exported, previewed.
  split; [reflexivity|]. split; [reflexivity|]. split; [exact B1 | exact B2].
Defined.

(** ** More on the monthly payment *)

Section PaymentFacts.

Import Payment.








End PaymentFacts.







(** ** The template store *)

Section StoreFacts.

Import Storage.

Variable Fields : Type.

Lemma Map_get_set_same {V : Type} (k : string) (v : V) (m : JsMap V) :
  Map_get k (Map_set k v m) = Some v.
Proof.
  induction m as [|[k' v'] m IH]; cbn.
  - rewrite String.eqb_refl. reflexivity.
  - destruct (String.eqb k k') eqn:E; cbn.
    + rewrite String.eqb_refl. reflexivity.
    + rewrite E. exact IH.
Qed.

Lemma Map_get_set_other {V : Type} (k k' : string) (v : V) (m : JsMap V) :
  k' <> k -> Map_get k' (Map_set k v m) = Map_get k' m.
Proof.
  intro N. induction m as [|[k0 v0] m IH]; cbn.
  - apply String.eqb_neq in N. rewrite N. reflexivity.
  - destruct (String.eqb k k0) eqn:E; cbn.
    + apply String.eqb_eq in E. subst k0.
      apply String.eqb_neq in N. rewrite N. reflexivity.
    + destruct (String.eqb k' k0); [reflexivity | exact IH].
Qed.

Lemma Map_set_fresh {V : Type} (k : string) (v : V) (m : JsMap V) :
  Map_get k m = None -> Map_set k v m = m ++ [(k, v)].
Proof.
  induction m as [|[k' v'] m IH]; cbn; [reflexivity|].
  destruct (String.eqb k k'); [discriminate|].
  intro H. rewrite (IH H). reflexivity.
Qed.

Lemma Map_set_existing {V : Type} (k : string) (v old : V) (m : JsMap V) :
  Map_get k m = Some old ->
  Map_keys (Map_set k v m) = Map_keys m /\
  List.length (Map_values (Map_set k v m)) = List.length (Map_values m) /\
  In v (Map_values (Map_set k v m)).
Proof.
  unfold Map_keys, Map_values.
  induction m as [|[k' v'] m IH]; cbn; [discriminate|].
  destruct (String.eqb k k') eqn:E.
  - apply String.eqb_eq in E. subst k'. intros _. cbn.
    split; [reflexivity|]. split; [reflexivity|]. left. reflexivity.
  - intro H. destruct (IH H) as [K [L I]]. cbn.
    rewrite K, L. split; [reflexivity|]. split; [reflexivity|].
    right. exact I.
Qed.

Lemma Map_get_None_keys {V : Type} (k : string) (m : JsMap V) :
  Map_get k m = None <-> ~ In k (Map_keys m).
Proof.
  unfold Map_keys. induction m as [|[k' v'] m IH]; cbn.
  - split; [intros _ []| reflexivity].
  - destruct (String.eqb k k') eqn:E.
    + apply String.eqb_eq in E. subst k'.
      split; [discriminate | intro H; exfalso; apply H; left; reflexivity].
    + apply String.eqb_neq in E. rewrite IH.
      split; [intros H [C | C]; [congruence | exact (H C)]
             | intros H C; apply H; right; exact C].
Qed.

Lemma Map_get_In {V : Type} (k : string) (v : V) (m : JsMap V) :
  Map_get k m = Some v -> In (k, v) m.
Proof.
  induction m as [|[k' v'] m IH]; cbn; [discriminate|].
  destruct (String.eqb k k') eqn:E.
  - apply String.eqb_eq in E. subst k'. intro H. injection H as <-.
    left. reflexivity.
  - intro H. right. exact (IH H).
Qed.

Lemma In_Map_get {V : Type} (k : string) (v : V) (m : JsMap V) :
  NoDup (Map_keys m) -> In (k, v) m -> Map_get k m = Some v.
Proof.
  unfold Map_keys. induction m as [|[k' v'] m IH]; cbn; [intros _ []|].
  intros ND [H | H].
  - injection H as -> ->. rewrite String.eqb_refl. reflexivity.
  - inversion ND as [|? ? NI ND']; subst.
    destruct (String.eqb k k') eqn:E.
    + apply String.eqb_eq in E. subst k'. exfalso. apply NI.
      apply (in_map fst) in H. exact H.
    + exact (IH ND' H).
Qed.

Lemma well_keyed_set (k : string) (t : StoryTemplate Fields)
    (st : MemStorage Fields) :
  template_id Fields t = k -> well_keyed Fields st ->
  well_keyed Fields (Map_set k t st).
Proof.
  intros Hid [ND F]. unfold well_keyed.
  destruct (Map_get k st) as [old|] eqn:G.
  - destruct (Map_set_existing k t old st G) as [K _]. rewrite K.
    split; [exact ND|].
    clear ND K G.
    induction st as [|[k' v'] st IH]; cbn;
      [repeat constructor; exact Hid|].
    apply Forall_cons_iff in F. destruct F as [Hh Ft].
    destruct (String.eqb k k') eqn:E.
    + constructor; [exact Hid | exact Ft].
    + constructor; [exact Hh | apply IH, Ft].
  - rewrite (Map_set_fresh k t st G). split.
    + unfold Map_keys in *. rewrite map_app. cbn [map fst].
      apply NoDup_app; [exact ND | repeat constructor; intros [] |].
      intros a Ia [C | []]. subst a.
      apply (proj1 (Map_get_None_keys k st) G). exact Ia.
    + apply Forall_app. split; [exact F|]. repeat constructor. exact Hid.
Qed.

Lemma well_keyed_after (requests : list (Request Fields)) :
  well_keyed Fields (after Fields requests).
Proof.
  unfold after.
  assert (G : forall st, well_keyed Fields st ->
                         well_keyed Fields (fold_left (serve Fields) requests st)).
  { induction requests as [|r rs IH]; intros st W; [exact W|].
    cbn [fold_left]. apply IH. unfold serve, createTemplate. cbn [snd].
    apply well_keyed_set; [reflexivity | exact W]. }
  apply G. split; [constructor | constructor].
Qed.

End StoreFacts.

(** A created template can be read back under the identifier it was given:
    [getTemplate] returns exactly the template [createTemplate] returned,
    which carries that identifier, the time stamp and the submitted fields,
    with a missing or empty image address stored as null; every other
    identifier still reads as before. *)
Theorem createTemplate_then_getTemplate
    (Fields : Type) (uuid now_iso : string)
    (insertTemplate : Storage.InsertStoryTemplate Fields)
    (st : Storage.MemStorage Fields) :
  let created := Storage.createTemplate Fields uuid now_iso insertTemplate st in
  let template := fst created in
  let st' := snd created in
  Storage.getTemplate Fields uuid st' = Some template /\
  Storage.template_id Fields template = uuid /\
  Storage.createdAt Fields template = now_iso /\
  Storage.template_fields Fields template
  = Storage.insert_fields Fields insertTemplate /\
  (Storage.backgroundImageUrl Fields template = None <->
   Storage.insert_backgroundImageUrl Fields insertTemplate = None \/
   Storage.insert_backgroundImageUrl Fields insertTemplate = Some EmptyString) /\
  (forall url, url <> EmptyString ->
     Storage.insert_backgroundImageUrl Fields insertTemplate = Some url ->
     Storage.backgroundImageUrl Fields template = Some url) /\
  (forall id, id <> uuid ->
     Storage.getTemplate Fields id st' = Storage.getTemplate Fields id st).
Proof.
  intros created template st'.
  split; [apply Map_get_set_same|].
  split; [reflexivity|]. split; [reflexivity|]. split; [reflexivity|].
  split; [|split].
  - subst template created. cbn.
    destruct (Storage.insert_backgroundImageUrl Fields insertTemplate)
      as [[|c u]|]; cbn.
    + split; [right; reflexivity | reflexivity].
    + split; [discriminate | intros [H | H]; discriminate H].
    + split; [left; reflexivity | reflexivity].
  - intros url N E. subst template created. cbn. rewrite E.
    destruct url; [contradiction | reflexivity].
  - intros id N. apply Map_get_set_other. exact N.
Qed.

Lemma createTemplate_then_getTemplate_witness :
  let ins := Storage.mkInsertStoryTemplate nat 7%nat (Some "bg.png"%string) None in
  let st1 := snd (Storage.createTemplate nat "a" "t1" ins (Storage.empty nat)) in
  let st2 := snd (Storage.createTemplate nat "b" "t2" ins st1) in
  Storage.getTemplate nat "a" st2 = Storage.getTemplate nat "a" st1 /\
  Storage.backgroundImageUrl nat
    (fst (Storage.createTemplate nat "b" "t2" ins st1)) = Some "bg.png"%string.
Proof.
  intros ins st1 st2.
  pose proof (createTemplate_then_getTemplate nat "b" "t2" ins st1) as H.
  cbv zeta in H. destruct H as (_ & _ & _ & _ & _ & U & O).
  split.
  - apply O. discriminate.
  - apply (U "bg.png"%string); [discriminate | reflexivity].
Defined.

(** [listTemplates] after [createTemplate]: with an identifier not yet in
    the store the new template is appended to the previous listing; with
    an identifier already present the listing keeps its length and the new
    template takes the place of the old one. *)
Theorem createTemplate_then_listTemplates
    (Fields : Type) (uuid now_iso : string)
    (insertTemplate : Storage.InsertStoryTemplate Fields)
    (st : Storage.MemStorage Fields) :
  let created := Storage.createTemplate Fields uuid now_iso insertTemplate st in
  let template := fst created in
  let st' := snd created in
  (Storage.getTemplate Fields uuid st = None ->
   Storage.listTemplates Fields st'
   = Storage.listTemplates Fields st ++ [template]) /\
  (forall old, Storage.getTemplate Fields uuid st = Some old ->
   List.length (Storage.listTemplates Fields st')
   = List.length (Storage.listTemplates Fields st) /\
   In template (Storage.listTemplates Fields st')).
Proof.
  intros created template st'. split.
  - intro G. subst st' created. unfold Storage.createTemplate. cbn [snd].
    unfold Storage.listTemplates, Storage.Map_values.
    unfold Storage.getTemplate in G.
    rewrite (Map_set_fresh _ _ _ G), map_app. reflexivity.
  - intros old G. subst st' created. unfold Storage.createTemplate. cbn [snd].
    unfold Storage.listTemplates. unfold Storage.getTemplate in G.
    destruct (Map_set_existing uuid template old st G) as [_ [L I]].
    split; [exact L | exact I].
Qed.

Lemma createTemplate_then_listTemplates_witness :
  let ins := Storage.mkInsertStoryTemplate nat 7%nat None None in
  let first := Storage.createTemplate nat "a" "t1" ins (Storage.empty nat) in
  let second := Storage.createTemplate nat "a" "t2" ins (snd first) in
  Storage.listTemplates nat (snd first) = [fst first] /\
  List.length (Storage.listTemplates nat (snd second)) = 1%nat.
Proof.
  intros ins first second. split.
  - apply (proj1 (createTemplate_then_listTemplates nat "a" "t1" ins
                    (Storage.empty nat))).
    reflexivity.
  - apply (proj2 (createTemplate_then_listTemplates nat "a" "t2" ins
                    (snd first)) (fst first)).
    reflexivity.
Defined.

(** After any sequence of create requests on a fresh store, the listing and
    the lookup agree: a template is listed exactly when [getTemplate] at
    its own identifier returns it, and no identifier is stored twice. *)
Theorem listed_iff_retrievable
    (Fields : Type) (requests : list (Storage.Request Fields))
    (t : Storage.StoryTemplate Fields) :
  let st := Storage.after Fields requests in
  (In t (Storage.listTemplates Fields st) <->
   Storage.getTemplate Fields (Storage.template_id Fields t) st = Some t) /\
  NoDup (Storage.Map_keys st).
Proof.
  intro st.
  destruct (well_keyed_after Fields requests) as [ND F]. fold st in ND, F.
  split; [|exact ND].
  unfold Storage.listTemplates, Storage.Map_values, Storage.getTemplate.
  split.
  - intro I. apply in_map_iff in I. destruct I as [[k v] [E I]].
    cbn [snd] in E. subst v.
    rewrite Forall_forall in F. pose proof (F _ I) as Hk. cbn [fst snd] in Hk.
    rewrite Hk. apply In_Map_get; assumption.
  - intro G. apply Map_get_In in G.
    apply in_map_iff. eexists. split; [|exact G]. reflexivity.
Qed.
